(** * CodeAssist: the review engine of [review_core.py]

    A shallow embedding of the review engine (tool adapters, diff filter,
    suggestion annotator, aggregator, renderer) and the properties of it
    that the design document states.

    Conventions of the embedding.
    - A Python [str] is the [string] of its UTF-8 bytes; module [Py] has
      the built-in methods the engine calls, with the tables of the
      interpreter's Unicode database that are too large to write out
      (case mapping and decimal digits outside ASCII) in the class
      [Unicode].  The interpreter's limit on the digits that [int()]
      reads is taken to be switched off; it never applies to a text of at
      most 640 characters ([int_of_str_below_threshold]).
    - Python exceptions are values of [exn]; code that may raise returns
      [result A].  [isinstance] carries the part of the built-in exception
      hierarchy that the [except] clauses of the source depend on.
    - The external analysers and parsers (the flake8 and bandit
      subprocesses, [json.loads], radon's [cc_visit], unidiff's [PatchSet])
      are the fields of the class [Externals].
    - [Dict[str, Set[int]]] is [gmap string (gset Z)].
    - The temporary file of an adapter ([_write_temp_code], the final
      [os.unlink]) lives inside [flake8_run] and [bandit_run]; the [debug]
      print of [review_code_string] is left out. *)

From Stdlib Require Import ZArith Ascii String List Bool Lia.
From Stdlib Require Import DecimalString.
From Stdlib Require DecimalPos.
From Stdlib Require Import Floats.SpecFloat.
From stdpp Require Import gmap strings list fin_maps.

Local Open Scope Z_scope.

(* ===================================================================== *)
(** ** Exceptions and the error monad *)
(* ===================================================================== *)

Inductive exn : Type :=
  | FileNotFoundError
  | PermissionError
  | OSError
  | ValueError
  | JSONDecodeError
  | TypeError
  | AttributeError
  | OverflowError
  | SyntaxError
  | UnidiffParseError
  | OtherError (name : string).

(** [isinstance e cls]: would [except cls] catch [e]?  [JSONDecodeError]
    derives from [ValueError]; [FileNotFoundError] and [PermissionError]
    derive from [OSError]. *)
Definition isinstance (e cls : exn) : bool :=
  match cls, e with
  | FileNotFoundError, FileNotFoundError => true
  | PermissionError, PermissionError => true
  | OSError, (OSError | FileNotFoundError | PermissionError) => true
  | ValueError, (ValueError | JSONDecodeError) => true
  | JSONDecodeError, JSONDecodeError => true
  | TypeError, TypeError => true
  | AttributeError, AttributeError => true
  | OverflowError, OverflowError => true
  | SyntaxError, SyntaxError => true
  | UnidiffParseError, UnidiffParseError => true
  | OtherError a, OtherError b => if string_dec a b then true else false
  | _, _ => false
  end.

Inductive result (A : Type) : Type :=
  | Ok (a : A)
  | Raise (e : exn).
Arguments Ok {A} a.
Arguments Raise {A} e.

Definition bind {A B : Type} (r : result A) (k : A -> result B) : result B :=
  match r with
  | Ok a => k a
  | Raise e => Raise e
  end.

Notation "x <- r ;; k" := (bind r (fun x => k))
  (at level 100, r at next level, right associativity).

(** [try: body except cls: handler]. *)
Definition try_except {A : Type} (body : result A) (cls : exn) (handler : result A)
  : result A :=
  match body with
  | Ok a => Ok a
  | Raise e => if isinstance e cls then handler else Raise e
  end.

Definition returns {A : Type} (r : result A) : Prop := exists a, r = Ok a.

(* ===================================================================== *)
(** ** The Python runtime the engine relies on *)
(* ===================================================================== *)

(** The part of the interpreter's Unicode database the engine can reach,
    for characters outside ASCII, each given by its UTF-8 bytes.
    - [unicode_upper ch]: the full upper-case mapping of [ch] (one or
      more characters).
    - [unicode_decimal ch]: the value, 0 to 9, of [ch] when it is a
      decimal digit. *)
Class Unicode : Type := {
  unicode_upper : string -> string;
  unicode_decimal : string -> option N
}.

Module Py.

Definition code (c : ascii) : N := N_of_ascii c.

Definition chr (n : N) : ascii := ascii_of_N n.

Definition LF : ascii := chr 10.
Definition CR : ascii := chr 13.

Definition snoc (s : string) (c : ascii) : string := s +:+ String c EmptyString.

Definition bytes (l : list N) : string :=
  fold_right (fun n s => String (chr n) s) EmptyString l.

Fixpoint concat (l : list string) : string :=
  match l with
  | [] => EmptyString
  | ch :: r => ch +:+ concat r
  end.

(** A byte [10xxxxxx] continues the character before it. *)
Definition is_continuation (b : ascii) : bool :=
  let n := code b in ((128 <=? n) && (n <? 192))%N.

(** The characters of a text, each with its UTF-8 bytes: a character
    starts at every byte that is not a continuation byte. *)
Fixpoint chars_from (cur : string) (s : string) : list string :=
  match s with
  | EmptyString => match cur with EmptyString => [] | _ => [cur] end
  | String b r =>
      if is_continuation b then chars_from (snoc cur b) r
      else
        match cur with
        | EmptyString => chars_from (String b EmptyString) r
        | _ => cur :: chars_from (String b EmptyString) r
        end
  end.

Definition characters (s : string) : list string := chars_from EmptyString s.

(** The white space outside ASCII: U+0085, U+00A0, U+1680, U+2000 to
    U+200A, U+2028, U+2029, U+202F, U+205F, U+3000. *)
Definition unicode_spaces : list string :=
  map bytes
    [[194; 133]; [194; 160]; [225; 154; 128];
     [226; 128; 128]; [226; 128; 129]; [226; 128; 130]; [226; 128; 131];
     [226; 128; 132]; [226; 128; 133]; [226; 128; 134]; [226; 128; 135];
     [226; 128; 136]; [226; 128; 137]; [226; 128; 138];
     [226; 128; 168]; [226; 128; 169]; [226; 128; 175]; [226; 129; 159];
     [227; 128; 128]]%N.

(** [ch.isspace()] for one character: TAB, LF, VT, FF, CR, the
    separators FS, GS, RS, US, the blank, and the white space outside
    ASCII. *)
Definition isspace (ch : string) : bool :=
  match ch with
  | String b EmptyString =>
      let n := code b in ((9 <=? n) && (n <=? 13) || (28 <=? n) && (n <=? 32))%N
  | _ => existsb (String.eqb ch) unicode_spaces
  end.

Fixpoint lstrip (l : list string) : list string :=
  match l with
  | [] => []
  | ch :: r => if isspace ch then lstrip r else l
  end.

(** [rstrip] keeps a character when it is not white space or when
    something is kept after it. *)
Fixpoint rstrip (l : list string) : list string :=
  match l with
  | [] => []
  | ch :: r =>
      match rstrip r with
      | [] => if isspace ch then [] else [ch]
      | r' => ch :: r'
      end
  end.

(** [s.strip()] *)
Definition strip (s : string) : string := concat (rstrip (lstrip (characters s))).

(** The line boundaries of [str.splitlines]: LF, VT, FF, CR, FS, GS, RS,
    U+0085, U+2028, U+2029 (CR LF counts once). *)
Definition islinebreak (ch : string) : bool :=
  match ch with
  | String b EmptyString =>
      let n := code b in ((10 <=? n) && (n <=? 13) || (28 <=? n) && (n <=? 30))%N
  | _ => existsb (String.eqb ch)
           (map bytes [[194; 133]; [226; 128; 168]; [226; 128; 169]]%N)
  end.

Fixpoint splitlines_from (cur : string) (l : list string) : list string :=
  match l with
  | [] => match cur with EmptyString => [] | _ => [cur] end
  | ch :: r =>
      if String.eqb ch (String CR EmptyString) then
        match r with
        | ch' :: r' =>
            if String.eqb ch' (String LF EmptyString)
            then cur :: splitlines_from EmptyString r'
            else cur :: splitlines_from EmptyString r
        | [] => cur :: splitlines_from EmptyString r
        end
      else if islinebreak ch then cur :: splitlines_from EmptyString r
      else splitlines_from (cur +:+ ch) r
  end.

(** [s.splitlines()] *)
Definition splitlines (s : string) : list string :=
  splitlines_from EmptyString (characters s).

Fixpoint split_from (sep : ascii) (maxsplit : nat) (cur : string) (s : string)
  : list string :=
  match s with
  | EmptyString => [cur]
  | String c r =>
      match maxsplit with
      | O => [cur +:+ s]
      | S m =>
          if Ascii.eqb c sep then cur :: split_from sep m EmptyString r
          else split_from sep maxsplit (snoc cur c) r
      end
  end.

(** [s.split(sep, maxsplit)] for a one-character separator. *)
Definition split (sep : ascii) (maxsplit : nat) (s : string) : list string :=
  split_from sep maxsplit EmptyString s.

Definition isdigit (c : ascii) : bool :=
  let n := code c in ((48 <=? n) && (n <=? 57))%N.

Definition digit_value (c : ascii) : Z := Z.of_N (code c) - 48.

(** Decimal digits with single underscores allowed between digits. *)
Fixpoint digits_from (acc : Z) (after_digit : bool) (s : string) : option Z :=
  match s with
  | EmptyString => if after_digit then Some acc else None
  | String c r =>
      if isdigit c then digits_from (10 * acc + digit_value c) true r
      else if Ascii.eqb c "_"%char then
        if after_digit then digits_from acc false r else None
      else None
  end.

(** The white space the C library knows, which [int()] skips around the
    digits: TAB, LF, VT, FF, CR and the blank. *)
Definition isspace_c (c : ascii) : bool :=
  let n := code c in ((9 <=? n) && (n <=? 13) || (n =? 32))%N.

Fixpoint lstrip_c (s : string) : string :=
  match s with
  | EmptyString => EmptyString
  | String c r => if isspace_c c then lstrip_c r else s
  end.

Fixpoint rstrip_c (s : string) : string :=
  match s with
  | EmptyString => EmptyString
  | String c r =>
      match rstrip_c r with
      | EmptyString => if isspace_c c then EmptyString else String c EmptyString
      | r' => String c r'
      end
  end.

Definition strip_c (s : string) : string := rstrip_c (lstrip_c s).

Fixpoint count_digits (s : string) : nat :=
  match s with
  | EmptyString => O
  | String c r => if isdigit c then S (count_digits r) else count_digits r
  end.

(** The limit on the digits of an integer text: it is looked at only for
    more than 640 digits ([sys.int_info.str_digits_check_threshold]), and
    [sys.get_int_max_str_digits()] is 0 when it is switched off, as it is
    taken to be here. *)
Definition str_digits_check_threshold : nat := 640.

Definition int_max_str_digits : nat := 0.

Definition exceeds_digit_limit (limit : nat) (s : string) : bool :=
  (str_digits_check_threshold <? count_digits s)%nat
  && (0 <? limit)%nat && (limit <? count_digits s)%nat.

(** An optional sign, then the digits. *)
Definition signed_digits (t : string) : option Z :=
  match t with
  | String "-"%char r => option_map Z.opp (digits_from 0 false r)
  | String "+"%char r => digits_from 0 false r
  | _ => digits_from 0 false t
  end.

Section WithUnicode.

Context `{Uni : Unicode}.

(** What [int()] makes of one character before it parses: an ASCII
    character stays, white space outside ASCII becomes a blank, a decimal
    digit outside ASCII becomes its ASCII digit, anything else is
    refused. *)
Definition int_char (ch : string) : option string :=
  let other :=
    if isspace ch then Some (String " "%char EmptyString)
    else option_map (fun d => String (chr (48 + d)) EmptyString) (unicode_decimal ch) in
  match ch with
  | String b EmptyString => if (code b <? 128)%N then Some ch else other
  | _ => other
  end.

Fixpoint int_transform (l : list string) : option string :=
  match l with
  | [] => Some EmptyString
  | ch :: r =>
      match int_char ch, int_transform r with
      | Some a, Some t => Some (a +:+ t)
      | _, _ => None
      end
  end.

(** [int(s)] for a [str] under a given limit on the digits: white space
    around, an optional sign, decimal digits with single underscores
    between them; [ValueError] otherwise. *)
Definition int_of_str_limited (limit : nat) (s : string) : result Z :=
  match int_transform (characters s) with
  | None => Raise ValueError
  | Some t =>
      match signed_digits (strip_c t) with
      | Some n => if exceeds_digit_limit limit t then Raise ValueError else Ok n
      | None => Raise ValueError
      end
  end.

(** [int(s)] for a [str]. *)
Definition int_of_str (s : string) : result Z :=
  int_of_str_limited int_max_str_digits s.

(** [ch.upper()] for one character. *)
Definition upper_char (ch : string) : string :=
  match ch with
  | String b EmptyString =>
      let n := code b in
      if ((97 <=? n) && (n <=? 122))%N then String (chr (n - 32)) EmptyString
      else if (n <? 128)%N then ch
      else unicode_upper ch
  | _ => unicode_upper ch
  end.

(** [s.upper()] *)
Definition upper (s : string) : string := concat (map upper_char (characters s)).

End WithUnicode.

(** [str(n)] for an [int]. *)
Definition str_of_int (n : Z) : string := NilZero.string_of_int (Z.to_int n).

(** [s.startswith(p)] *)
Fixpoint startswith (s p : string) {struct p} : bool :=
  match p, s with
  | EmptyString, _ => true
  | String a p', String b s' => Ascii.eqb a b && startswith s' p'
  | String _ _, EmptyString => false
  end.

(** [s[n:]] *)
Fixpoint slice_from (n : nat) (s : string) : string :=
  match n, s with
  | O, _ => s
  | S m, String _ r => slice_from m r
  | S _, EmptyString => EmptyString
  end.

Fixpoint after_last_slash (cur : string) (s : string) : string :=
  match s with
  | EmptyString => cur
  | String c r =>
      if Ascii.eqb c "/"%char then after_last_slash EmptyString r
      else after_last_slash (snoc cur c) r
  end.

(** [os.path.basename] of [posixpath]: what follows the last slash. *)
Definition basename (p : string) : string := after_last_slash EmptyString p.

(** [sep.join(parts)] *)
Fixpoint join (sep : string) (parts : list string) : string :=
  match parts with
  | [] => EmptyString
  | [p] => p
  | p :: rest => p +:+ sep +:+ join sep rest
  end.

(** Values that [json.loads] produces. A [dict] keeps its items in
    insertion order, one item per key. *)
#[warning="-register-all"]
Inductive value : Type :=
  | PyNone
  | PyBool (b : bool)
  | PyInt (n : Z)
  | PyFloat (f : spec_float)
  | PyStr (s : string)
  | PyList (items : list value)
  | PyDict (items : list (string * value)).

(** Truth value, as tested by [or] and [if]. *)
Definition truthy (v : value) : bool :=
  match v with
  | PyNone => false
  | PyBool b => b
  | PyInt n => negb (n =? 0)
  | PyFloat (S754_zero _) => false
  | PyFloat _ => true
  | PyStr EmptyString => false
  | PyStr _ => true
  | PyList [] => false
  | PyList _ => true
  | PyDict [] => false
  | PyDict _ => true
  end.

Fixpoint assoc (key : string) (items : list (string * value)) : option value :=
  match items with
  | [] => None
  | (k, v) :: rest => if String.eqb k key then Some v else assoc key rest
  end.

(** [obj.get(key, default)]; only a [dict] has the method. *)
Definition get (obj : value) (key : string) (default : value) : result value :=
  match obj with
  | PyDict items =>
      match assoc key items with
      | Some v => Ok v
      | None => Ok default
      end
  | _ => Raise AttributeError
  end.

Fixpoint chars (s : string) : list value :=
  match s with
  | EmptyString => []
  | String c r => PyStr (String c EmptyString) :: chars r
  end.

(** The items a [for] loop visits. *)
Definition iter (v : value) : result (list value) :=
  match v with
  | PyList items => Ok items
  | PyDict items => Ok (map (fun kv => PyStr (fst kv)) items)
  | PyStr s => Ok (chars s)
  | _ => Raise TypeError
  end.

(** [int(x)] of a float: truncation towards zero. *)
Definition int_of_float (f : spec_float) : result Z :=
  match f with
  | S754_zero _ => Ok 0
  | S754_infinity _ => Raise OverflowError
  | S754_nan => Raise ValueError
  | S754_finite s m e =>
      let mag := if 0 <=? e then Z.shiftl (Z.pos m) e else Z.shiftr (Z.pos m) (- e) in
      Ok (if s then - mag else mag)
  end.

Section ValuesWithUnicode.

Context `{Uni : Unicode}.

(** [int(x)] *)
Definition int (v : value) : result Z :=
  match v with
  | PyInt n => Ok n
  | PyBool b => Ok (if b then 1 else 0)
  | PyFloat f => int_of_float f
  | PyStr s => int_of_str s
  | PyNone | PyList _ | PyDict _ => Raise TypeError
  end.

(** [v.upper()]; only a [str] has the method. *)
Definition upper_method (v : value) : result string :=
  match v with
  | PyStr s => Ok (upper s)
  | _ => Raise AttributeError
  end.

End ValuesWithUnicode.

End Py.

Abbreviation PyNone := Py.PyNone.
Abbreviation PyBool := Py.PyBool.
Abbreviation PyInt := Py.PyInt.
Abbreviation PyFloat := Py.PyFloat.
Abbreviation PyStr := Py.PyStr.
Abbreviation PyList := Py.PyList.
Abbreviation PyDict := Py.PyDict.

(* ===================================================================== *)
(** ** Data model *)
(* ===================================================================== *)

(** The dataclass [Issue].  [rule] and [message] are declared [str]; the
    security adapter stores whatever JSON value the report carries, so the
    two fields hold a [Py.value]. *)
Record Issue : Type := mkIssue {
  file : string;
  line : Z;
  severity : string;
  tool : string;
  rule : Py.value;
  message : Py.value;
  suggestion : option string
}.

(** [Issue(file, line, severity, tool, rule, message)]: [suggestion]
    defaults to [None]. *)
Definition new_Issue (f : string) (l : Z) (sev tl : string) (r m : Py.value) : Issue :=
  mkIssue f l sev tl r m None.

Definition set_suggestion (i : Issue) (s : option string) : Issue :=
  mkIssue (file i) (line i) (severity i) (tool i) (rule i) (message i) s.

(** What radon's [cc_visit] yields for a function, method or class. *)
Record Block : Type := mkBlock {
  name : string;
  complexity : Z;
  lineno : Z
}.

(** unidiff: a line of a hunk, a hunk, a patched file. *)
Record Line : Type := mkLine {
  is_added : bool;
  target_line_no : option Z
}.

Definition Hunk : Type := list Line.

Record PatchedFile : Type := mkPatchedFile {
  target_file : string;
  is_removed_file : bool;
  hunks : list Hunk
}.

(** The collaborators outside the repository.
    - [flake8_run code], [bandit_run code]: [subprocess.run] of the
      analyser on the temporary file holding [code]; [Ok stdout] when the
      process ran, [Raise e] when launching it raised.
    - [json_loads], [cc_visit], [PatchSet]: the library calls of the same
      names.
    - [py_str]: [str(v)] of a value that is not a [str], [int], [bool] or
      [None] (floats and containers print through the interpreter's
      [repr]).
    - [externals_unicode]: the interpreter's Unicode database. *)
Class Externals : Type := {
  externals_unicode :: Unicode;
  flake8_run : string -> result string;
  bandit_run : string -> result string;
  json_loads : string -> result Py.value;
  cc_visit : string -> result (list Block);
  PatchSet : string -> result (list PatchedFile);
  py_str : Py.value -> string
}.

(* ===================================================================== *)
(** ** review_core.py *)
(* ===================================================================== *)

Section ReviewCore.

Context `{Ext : Externals}.

(** *** run_flake8 *)

(** The body of the inner [try]: unpack the four fields, convert the
    row; both steps can raise [ValueError]. *)
Definition flake8_line (filename_hint : string) (ln : string) : result Issue :=
  match Py.split "|"%char 3 ln with
  | [row; col; code_id; text] =>
      n <- Py.int_of_str row ;;
      Ok (new_Issue filename_hint n "LOW" "flake8" (PyStr code_id) (PyStr text))
  | _ => Raise ValueError
  end.

(** One turn of the [for] loop, with its [except ValueError: pass]. *)
Definition flake8_step (filename_hint : string) (issues : list Issue) (ln : string)
  : result (list Issue) :=
  try_except
    (i <- flake8_line filename_hint ln ;; Ok (issues ++ [i]))
    ValueError
    (Ok issues).

Fixpoint flake8_loop (filename_hint : string) (lines : list string)
    (issues : list Issue) : result (list Issue) :=
  match lines with
  | [] => Ok issues
  | ln :: rest =>
      issues' <- flake8_step filename_hint issues ln ;;
      flake8_loop filename_hint rest issues'
  end.

Definition flake8_missing (filename_hint : string) : Issue :=
  new_Issue filename_hint 1 "LOW" "flake8" (PyStr "INSTALL")
    (PyStr "flake8 not found. Did you install requirements?").

Definition run_flake8 (code filename_hint : string) : result (list Issue) :=
  match flake8_run code with
  | Raise e =>
      if isinstance e FileNotFoundError then Ok [flake8_missing filename_hint]
      else Raise e
  | Ok stdout =>
      flake8_loop filename_hint (Py.splitlines (Py.strip stdout)) []
  end.

(** *** run_bandit *)

(** The body of the [for] loop over the reported results. *)
Definition bandit_result (filename_hint : string) (res : Py.value) : result Issue :=
  ln_v <- Py.get res "line_number" (PyInt 1) ;;
  ln <- Py.int ln_v ;;
  sev_v <- Py.get res "issue_severity" PyNone ;;
  sev <- Py.upper_method (if Py.truthy sev_v then sev_v else PyStr "LOW") ;;
  rl <- Py.get res "test_id" (PyStr "BXXX") ;;
  msg <- Py.get res "issue_text" (PyStr "Security issue") ;;
  Ok (new_Issue filename_hint ln sev "bandit" rl msg).

(** The loop appends to [issues] in place: when a turn raises, the
    issues appended so far are kept next to the exception. *)
Fixpoint bandit_loop (filename_hint : string) (results : list Py.value)
    (issues : list Issue) : list Issue * option exn :=
  match results with
  | [] => (issues, None)
  | res :: rest =>
      match bandit_result filename_hint res with
      | Ok i => bandit_loop filename_hint rest (issues ++ [i])
      | Raise e => (issues, Some e)
      end
  end.

(** The body of the [try]: from [json.loads] to the end of the loop. *)
Definition bandit_body (filename_hint stdout : string) : list Issue * option exn :=
  match json_loads (if String.eqb stdout "" then "{}" else stdout) with
  | Raise e => ([], Some e)
  | Ok data =>
      match (r <- Py.get data "results" (PyList []) ;; Py.iter r) with
      | Raise e => ([], Some e)
      | Ok results => bandit_loop filename_hint results []
      end
  end.

Definition bandit_missing (filename_hint : string) : Issue :=
  new_Issue filename_hint 1 "LOW" "bandit" (PyStr "INSTALL")
    (PyStr "bandit not found. Did you install requirements?").

Definition run_bandit (code filename_hint : string) : result (list Issue) :=
  match bandit_run code with
  | Raise e =>
      if isinstance e FileNotFoundError then Ok [bandit_missing filename_hint]
      else Raise e
  | Ok stdout =>
      match bandit_body filename_hint stdout with
      | (issues, None) => Ok issues
      | (issues, Some e) =>
          if isinstance e JSONDecodeError then Ok issues else Raise e
      end
  end.

(** *** run_complexity *)

Definition complexity_message (b : Block) : string :=
  "Function '" +:+ name b +:+ "' is too complex (CC="
    +:+ Py.str_of_int (complexity b) +:+ ").".

Definition complexity_step (filename_hint : string) (cc_threshold : Z)
    (issues : list Issue) (b : Block) : list Issue :=
  if cc_threshold <=? complexity b then
    issues ++ [new_Issue filename_hint (lineno b) "MEDIUM" "complexity"
                 (PyStr "CC") (PyStr (complexity_message b))]
  else issues.

Definition run_complexity (code filename_hint : string) (cc_threshold : Z)
  : result (list Issue) :=
  blocks <- cc_visit code ;;
  Ok (fold_left (complexity_step filename_hint cc_threshold) blocks []).

Definition default_cc_threshold : Z := 3.

(** *** The diff filter *)

Definition _normalize_path (p : string) : string :=
  let p :=
    if Py.startswith p "a/" || Py.startswith p "b/" then Py.slice_from 2 p
    else p in
  Py.basename p.

(** One turn of the innermost loop: [added.add(int(line.target_line_no))]
    for an added line that has a target line number. *)
Definition added_step (added : gset Z) (ln : Line) : gset Z :=
  if is_added ln then
    match target_line_no ln with
    | Some n => {[ n ]} ∪ added
    | None => added
    end
  else added.

Definition added_lines (patched_file : PatchedFile) : gset Z :=
  fold_left (fun added hunk => fold_left added_step hunk added)
    (hunks patched_file) ∅.

(** One turn of the loop over the patched files. *)
Definition changed_step (changed : gmap string (gset Z)) (patched_file : PatchedFile)
  : gmap string (gset Z) :=
  if is_removed_file patched_file then changed
  else
    let added := added_lines patched_file in
    if decide (added = ∅) then changed
    else <[ _normalize_path (target_file patched_file) := added ]> changed.

Definition changed_of_patch (ps : list PatchedFile) : gmap string (gset Z) :=
  fold_left changed_step ps ∅.

Definition _changed_lines_from_diff (diff_text : string)
  : result (gmap string (gset Z)) :=
  ps <- PatchSet diff_text ;;
  Ok (changed_of_patch ps).

(** The condition of the list comprehension. *)
Definition on_changed_line (changed : gmap string (gset Z)) (i : Issue) : bool :=
  match changed !! _normalize_path (file i) with
  | Some added => bool_decide (line i ∈ added)
  | None => false
  end.

Definition filter_issues_to_changed_lines (issues : list Issue) (diff_text : string)
  : result (list Issue) :=
  changed <- _changed_lines_from_diff diff_text ;;
  if decide (changed = ∅) then Ok issues
  else Ok (List.filter (on_changed_line changed) issues).

(** *** The annotator and the aggregator *)

Definition friendly_suggestion (issue : Issue) : option string :=
  if String.eqb (tool issue) "complexity" then
    Some "Extract smaller functions; reduce nesting/branches."
  else if String.eqb (tool issue) "bandit" then
    Some "Avoid unsafe functions (e.g., eval); validate and sanitize inputs."
  else if String.eqb (tool issue) "flake8" then
    Some "Follow PEP 8 (naming, spacing, line length) for readability."
  else None.

Definition annotate (i : Issue) : Issue := set_suggestion i (friendly_suggestion i).

(** [debug] only prints the three counts and is left out. *)
Definition review_code_string (code filename_hint : string) : result (list Issue) :=
  f8 <- run_flake8 code filename_hint ;;
  bd <- run_bandit code filename_hint ;;
  cx <- run_complexity code filename_hint default_cc_threshold ;;
  Ok (map annotate (f8 ++ bd ++ cx)).

(** *** The renderer *)

(** An element of the sequence handed to the renderer: an [Issue], or an
    object without a [tool] attribute. *)
Inductive entry : Type :=
  | AnIssue (i : Issue)
  | Shapeless.

(** The argument of the renderer: a [str] or a sequence. *)
Inductive rendered : Type :=
  | Text (s : string)
  | Entries (l : list entry).

(** [f"{v}"] *)
Definition format_value (v : Py.value) : string :=
  match v with
  | PyStr s => s
  | PyInt n => Py.str_of_int n
  | PyBool true => "True"
  | PyBool false => "False"
  | PyNone => "None"
  | _ => py_str v
  end.

Definition tip_of (iss : Issue) : string :=
  match suggestion iss with
  | Some (String c r) => " Tip: " +:+ String c r
  | _ => ""
  end.

Definition markdown_line (iss : Issue) : string :=
  "- **" +:+ Py.upper (tool iss) +:+ " " +:+ format_value (rule iss)
    +:+ "** (" +:+ severity iss +:+ ") "
    +:+ "at `" +:+ file iss +:+ ":" +:+ Py.str_of_int (line iss)
    +:+ "` — " +:+ format_value (message iss) +:+ tip_of iss.

Definition markdown_step (lines : list string) (e : entry) : list string :=
  match e with
  | AnIssue iss => lines ++ [markdown_line iss]
  | Shapeless => lines
  end.

Definition no_issues_message : string := "✅ No issues found. Great job!".

Definition issues_to_markdown (issues : rendered) : string :=
  match issues with
  | Text s => s
  | Entries [] => no_issues_message
  | Entries l =>
      Py.join (String Py.LF "") (fold_left markdown_step l ["### Review Comments"])
  end.

End ReviewCore.

(* ===================================================================== *)
(** ** Predicates used in the statements *)
(* ===================================================================== *)

(** [sub in s] for two strings. *)
Definition Contains (sub s : string) : Prop :=
  exists pre post, s = pre +:+ sub +:+ post.

Fixpoint no_slash (s : string) : bool :=
  match s with
  | EmptyString => true
  | String c r => negb (Ascii.eqb c "/"%char) && no_slash r
  end.

(** A patched file that adds an entry to the changed-line map. *)
Definition contributes (pf : PatchedFile) : Prop :=
  is_removed_file pf = false /\ added_lines pf <> ∅.

Definition key_of (pf : PatchedFile) : string := _normalize_path (target_file pf).

(** The issue the complexity adapter emits for a block. *)
Definition complexity_issue (filename_hint : string) (b : Block) : Issue :=
  mkIssue filename_hint (lineno b) "MEDIUM" "complexity" (PyStr "CC")
    (PyStr ("Function '" +:+ name b +:+ "' is too complex (CC="
              +:+ Py.str_of_int (complexity b) +:+ ")."))
    None.

Section Statements.

Context `{Ext : Externals}.

(** The issues of the style adapter, one per well-formed line. *)
Definition flake8_issues (filename_hint : string) (lines : list string) : list Issue :=
  flat_map (fun ln => match flake8_line filename_hint ln with
                      | Ok i => [i]
                      | Raise _ => []
                      end) lines.

(** What the design document says of a security result. *)

(** Line number of a reported result: the reported number, 1 when it is
    absent or not a number. *)
Definition reported_line (items : list (string * Py.value)) : Z :=
  match Py.assoc "line_number" items with
  | Some v => match Py.int v with Ok n => n | Raise _ => 1 end
  | None => 1
  end.

(** Severity: the reported text in upper case, LOW without one. *)
Definition reported_severity (items : list (string * Py.value)) : string :=
  match Py.assoc "issue_severity" items with
  | Some (PyStr (String c r)) => Py.upper (String c r)
  | _ => "LOW"
  end.

Definition reported_rule (items : list (string * Py.value)) : Py.value :=
  match Py.assoc "test_id" items with
  | Some v => v
  | None => PyStr "BXXX"
  end.

Definition reported_message (items : list (string * Py.value)) : Py.value :=
  match Py.assoc "issue_text" items with
  | Some v => v
  | None => PyStr "Security issue"
  end.

Definition reported_issue (filename_hint : string) (items : list (string * Py.value))
  : Issue :=
  mkIssue filename_hint (reported_line items) (reported_severity items) "bandit"
    (reported_rule items) (reported_message items) None.

(** A text of at most 640 characters is below the threshold under which
    no setting of the interpreter's digit limit applies. *)
Definition within_digit_limit (v : Py.value) : Prop :=
  match v with
  | PyStr s => (String.length s <= 640)%nat
  | _ => True
  end.

(** The line number is absent or something [int()] converts. *)
Definition convertible_line (items : list (string * Py.value)) : Prop :=
  match Py.assoc "line_number" items with
  | Some v => (exists n, Py.int v = Ok n) /\ within_digit_limit v
  | None => True
  end.

(** The severity is absent, falsy, or a string. *)
Definition textual_severity (items : list (string * Py.value)) : Prop :=
  match Py.assoc "issue_severity" items with
  | Some v => Py.truthy v = true -> exists s, v = PyStr s
  | None => True
  end.

(** Every line number an analyser reports for [code] is at least 1. *)
Definition positive_line_reports (code : string) : Prop :=
  (forall stdout ln row col code_id text n,
      flake8_run code = Ok stdout ->
      In ln (Py.splitlines (Py.strip stdout)) ->
      Py.split "|" 3 ln = [row; col; code_id; text] ->
      Py.int_of_str row = Ok n ->
      1 <= n) /\
  (forall stdout data results res v n,
      bandit_run code = Ok stdout ->
      json_loads (if String.eqb stdout "" then "{}" else stdout) = Ok data ->
      (r <- Py.get data "results" (PyList []) ;; Py.iter r) = Ok results ->
      In res results ->
      Py.get res "line_number" (PyInt 1) = Ok v ->
      Py.int v = Ok n ->
      1 <= n) /\
  (forall blocks b, cc_visit code = Ok blocks -> In b blocks -> 1 <= lineno b).

(** The line of [i] is a line number that an analyser reported for
    [code]: the row of a well-formed line of flake8, the line number of a
    result of bandit (1 without one), the first line of a block of radon
    at or above the default threshold; or it is the 1 of the Issue that
    stands for an analyser that could not be launched. *)
Definition line_reported (code : string) (i : Issue) : Prop :=
  (tool i = "flake8" /\
   ((exists e, flake8_run code = Raise e /\ isinstance e FileNotFoundError = true /\
                line i = 1) \/
    (exists stdout ln row col code_id text,
        flake8_run code = Ok stdout /\
        In ln (Py.splitlines (Py.strip stdout)) /\
        Py.split "|" 3 ln = [row; col; code_id; text] /\
        Py.int_of_str row = Ok (line i)))) \/
  (tool i = "bandit" /\
   ((exists e, bandit_run code = Raise e /\ isinstance e FileNotFoundError = true /\
                line i = 1) \/
    (exists stdout data results res v,
        bandit_run code = Ok stdout /\
        json_loads (if String.eqb stdout "" then "{}" else stdout) = Ok data /\
        (r <- Py.get data "results" (PyList []) ;; Py.iter r) = Ok results /\
        In res results /\
        Py.get res "line_number" (PyInt 1) = Ok v /\
        Py.int v = Ok (line i)))) \/
  (tool i = "complexity" /\
   exists blocks b,
     cc_visit code = Ok blocks /\ In b blocks /\
     default_cc_threshold <= complexity b /\ line i = lineno b).

(** Every line number reported for [code] is the line of an Issue of
    [issues] with the tool's tag. *)
Definition reports_covered (code : string) (issues : list Issue) : Prop :=
  (forall stdout ln row col code_id text n,
      flake8_run code = Ok stdout ->
      In ln (Py.splitlines (Py.strip stdout)) ->
      Py.split "|" 3 ln = [row; col; code_id; text] ->
      Py.int_of_str row = Ok n ->
      exists i, In i issues /\ tool i = "flake8" /\ line i = n) /\
  (forall stdout data results res,
      bandit_run code = Ok stdout ->
      json_loads (if String.eqb stdout "" then "{}" else stdout) = Ok data ->
      (r <- Py.get data "results" (PyList []) ;; Py.iter r) = Ok results ->
      In res results ->
      exists i v,
        In i issues /\ tool i = "bandit" /\
        Py.get res "line_number" (PyInt 1) = Ok v /\ Py.int v = Ok (line i)) /\
  (forall blocks b,
      cc_visit code = Ok blocks -> In b blocks ->
      default_cc_threshold <= complexity b ->
      exists i, In i issues /\ tool i = "complexity" /\ line i = lineno b).

End Statements.

Definition known_tool (i : Issue) : Prop :=
  tool i = "flake8" \/ tool i = "bandit" \/ tool i = "complexity".

(* ===================================================================== *)
(** ** Sample runs *)
(* ===================================================================== *)

Definition quoted (s : string) : string :=
  String (Py.chr 34) "" +:+ s +:+ String (Py.chr 34) "".

(** [json.loads] on the two reports used below, [{}] and anything else. *)
Definition report_ok : string :=
  "{" +:+ quoted "results" +:+ ": [{" +:+ quoted "line_number" +:+ ": 5, "
    +:+ quoted "issue_severity" +:+ ": " +:+ quoted "medium" +:+ ", "
    +:+ quoted "test_id" +:+ ": " +:+ quoted "B307" +:+ ", "
    +:+ quoted "issue_text" +:+ ": " +:+ quoted "Use of possibly insecure function"
    +:+ "}, {" +:+ quoted "issue_text" +:+ ": " +:+ quoted "note" +:+ "}]}".

Definition report_ok_data : Py.value :=
  PyDict [("results",
           PyList [PyDict [("line_number", PyInt 5);
                           ("issue_severity", PyStr "medium");
                           ("test_id", PyStr "B307");
                           ("issue_text", PyStr "Use of possibly insecure function")];
                   PyDict [("issue_text", PyStr "note")]])].

Definition report_bad_line : string :=
  "{" +:+ quoted "results" +:+ ": [{" +:+ quoted "line_number" +:+ ": "
    +:+ quoted "abc" +:+ ", "
    +:+ quoted "issue_severity" +:+ ": " +:+ quoted "HIGH" +:+ ", "
    +:+ quoted "test_id" +:+ ": " +:+ quoted "B307" +:+ ", "
    +:+ quoted "issue_text" +:+ ": " +:+ quoted "Use of eval" +:+ "}]}".

Definition bad_line_record : list (string * Py.value) :=
  [("line_number", PyStr "abc"); ("issue_severity", PyStr "HIGH");
   ("test_id", PyStr "B307"); ("issue_text", PyStr "Use of eval")].

Definition sample_json_loads (s : string) : result Py.value :=
  if String.eqb s "{}" then Ok (PyDict [])
  else if String.eqb s report_ok then Ok report_ok_data
  else if String.eqb s report_bad_line then
    Ok (PyDict [("results", PyList [PyDict bad_line_record])])
  else Raise JSONDecodeError.

(** Three unified diffs and what unidiff makes of them. *)
Definition diff_adds_line_2 : string :=
"--- a/snippet.py
+++ b/snippet.py
@@ -1,2 +1,3 @@
 import os
+def add(a,b): return a+b
 x = 1
".

Definition diff_removes_only : string :=
"--- a/snippet.py
+++ b/snippet.py
@@ -1,3 +1,2 @@
 import os
-import sys
 x = 1
".

Definition diff_two_utils : string :=
"--- a/pkg/util.py
+++ b/pkg/util.py
@@ -1,1 +1,2 @@
 a = 1
+b = 2
--- a/lib/util.py
+++ b/lib/util.py
@@ -4,1 +4,2 @@
 c = 3
+d = 4
".

Definition context_line (n : Z) : Line := mkLine false (Some n).
Definition added_line (n : Z) : Line := mkLine true (Some n).
Definition removed_line : Line := mkLine false None.

Definition snippet_adds_2 : PatchedFile :=
  mkPatchedFile "b/snippet.py" false [[context_line 1; added_line 2; context_line 3]].

Definition snippet_removes : PatchedFile :=
  mkPatchedFile "b/snippet.py" false [[context_line 1; removed_line; context_line 2]].

Definition pkg_util : PatchedFile :=
  mkPatchedFile "b/pkg/util.py" false [[context_line 1; added_line 2]].

Definition lib_util : PatchedFile :=
  mkPatchedFile "b/lib/util.py" false [[context_line 4; added_line 5]].

Definition sample_PatchSet (s : string) : result (list PatchedFile) :=
  if String.eqb s diff_adds_line_2 then Ok [snippet_adds_2]
  else if String.eqb s diff_removes_only then Ok [snippet_removes]
  else if String.eqb s diff_two_utils then Ok [pkg_util; lib_util]
  else Ok [].

(** A diff that touches [snippet.py] and then a vendored file of the
    same name. *)
Definition diff_snippet_and_vendor : string :=
"--- a/snippet.py
+++ b/snippet.py
@@ -1,2 +1,3 @@
 import os
+def add(a,b): return a+b
 x = 1
--- a/vendor/snippet.py
+++ b/vendor/snippet.py
@@ -6,1 +6,2 @@
 y = 2
+z = 3
".

Definition vendor_snippet : PatchedFile :=
  mkPatchedFile "b/vendor/snippet.py" false [[context_line 6; added_line 7]].

Definition vendored_PatchSet (s : string) : result (list PatchedFile) :=
  if String.eqb s diff_snippet_and_vendor then Ok [snippet_adds_2; vendor_snippet]
  else sample_PatchSet s.

(** radon on the sample sources: one it cannot parse, one with four
    functions. *)
Definition unparsable_code : string := "def broken(:".

Definition sample_blocks : list Block :=
  [mkBlock "add" 1 2; mkBlock "complex_fn" 11 8; mkBlock "three_paths" 3 40;
   mkBlock "two_paths" 2 50].

Definition sample_cc_visit (code : string) : result (list Block) :=
  if String.eqb code unparsable_code then Raise SyntaxError else Ok sample_blocks.

(** A Unicode database with two entries: the upper case of e acute and
    the value of the Arabic-Indic digit three. *)
Definition sample_unicode : Unicode :=
  {| unicode_upper := fun ch => if String.eqb ch "é" then "É" else ch;
     unicode_decimal := fun ch => if String.eqb ch "٣" then Some 3%N else None |}.

Definition world (f8 bd : string -> result string) : Externals :=
  {| externals_unicode := sample_unicode;
     flake8_run := f8;
     bandit_run := bd;
     json_loads := sample_json_loads;
     cc_visit := sample_cc_visit;
     PatchSet := sample_PatchSet;
     py_str := fun _ => "" |}.

(** Both analysers run and report. *)
Definition sample_run : Externals :=
  world (fun _ => Ok "2|1|E231|missing whitespace after ','
") (fun _ => Ok report_ok).

(** [subprocess.run([sys.executable, "-m", module, ...], check=False)]:
    [FileNotFoundError] when the interpreter [sys.executable] cannot be
    launched; otherwise the interpreter runs, and a module that is not
    installed makes it print [No module named ...] on stderr and nothing
    on stdout, and exit with status 1, which [check=False] lets pass. *)
Definition python_m (interpreter_found : bool) (module : option (string -> string))
    (code : string) : result string :=
  if interpreter_found
  then Ok (match module with Some run => run code | None => "" end)
  else Raise FileNotFoundError.

(** Both analysers run and report; unidiff also knows the diff with the
    vendored file. *)
Definition vendored_run : Externals :=
  {| externals_unicode := sample_unicode;
     flake8_run := flake8_run (Externals := sample_run);
     bandit_run := bandit_run (Externals := sample_run);
     json_loads := sample_json_loads;
     cc_visit := sample_cc_visit;
     PatchSet := vendored_PatchSet;
     py_str := fun _ => EmptyString |}.

(** bandit reports line numbers that are texts and a severity outside
    ASCII. *)
Definition text_line_records : list (list (string * Py.value)) :=
  [[("line_number", PyStr " 12 "); ("issue_severity", PyStr "élevé")];
   [("line_number", PyStr "٣"); ("issue_severity", PyStr EmptyString)]].

Definition report_text_lines : string :=
  "{" +:+ quoted "results" +:+ ": [{" +:+ quoted "line_number" +:+ ": "
    +:+ quoted " 12 " +:+ ", "
    +:+ quoted "issue_severity" +:+ ": " +:+ quoted "élevé" +:+ "}, {"
    +:+ quoted "line_number" +:+ ": " +:+ quoted "٣" +:+ ", "
    +:+ quoted "issue_severity" +:+ ": " +:+ quoted EmptyString +:+ "}]}".

Definition bandit_text_lines : Externals :=
  {| externals_unicode := sample_unicode;
     flake8_run := fun _ => Ok EmptyString;
     bandit_run := fun _ => Ok report_text_lines;
     json_loads := fun s =>
       if String.eqb s report_text_lines
       then Ok (PyDict [("results", PyList (map PyDict text_line_records))])
       else Raise JSONDecodeError;
     cc_visit := sample_cc_visit;
     PatchSet := sample_PatchSet;
     py_str := fun _ => EmptyString |}.

(** The interpreter cannot be launched: both calls of [subprocess.run]
    raise [FileNotFoundError]. *)
Definition analysers_missing : Externals :=
  world (fun _ => Raise FileNotFoundError) (fun _ => Raise FileNotFoundError).

(** The interpreter runs, the modules flake8 and bandit are not
    installed. *)
Definition modules_missing : Externals :=
  world (python_m true None) (python_m true None).

(** flake8 reports an unreadable file at row 0. *)
Definition flake8_row_zero : Externals :=
  world (fun _ => Ok "0|0|E902|FileNotFoundError: file vanished
") (fun _ => Ok "").

(** flake8 prints a row in Arabic-Indic digits and a text that holds a
    line separator (U+2028). *)
Definition flake8_other_scripts : Externals :=
  world (fun _ => Ok ("٣|1|E501|line too long" +:+ Py.bytes [226; 128; 168]%N
                      +:+ "see setup.cfg" +:+ String Py.LF EmptyString))
        (fun _ => Ok EmptyString).

(** bandit reports a line number that is not a number. *)
Definition bandit_bad_line : Externals :=
  world (fun _ => Ok "") (fun _ => Ok report_bad_line).

Definition sample_code : string := "eval(input())".

Definition style_issue_line_2 : Issue :=
  mkIssue "snippet.py" 2 "LOW" "flake8" (PyStr "E231")
    (PyStr "missing whitespace after ','") None.

Definition security_issue_line_5 : Issue :=
  mkIssue "snippet.py" 5 "MEDIUM" "bandit" (PyStr "B307")
    (PyStr "Use of possibly insecure function") None.

Definition util_issue (n : Z) : Issue :=
  mkIssue "util.py" n "LOW" "flake8" (PyStr "E225")
    (PyStr "missing whitespace around operator") None.

(* ===================================================================== *)
(** ** review.py and app.py *)
(* ===================================================================== *)

(** What the command line and the web form need from the host besides
    the analysers.
    - [open_read path]: [open(path, "r", encoding="utf-8").read()].
    - [str_of_exn e]: [str(e)], the text of an exception.
    - [decode_ignore b]: [b.decode("utf-8", errors="ignore")]. *)
Class Host : Type := {
  open_read : string -> result string;
  str_of_exn : exn -> string;
  decode_ignore : string -> string
}.

(** The parsed command line: [--file] is required, [--diff] optional. *)
Record Namespace : Type := mkNamespace {
  args_file : string;
  args_diff : option string
}.

(** What a run of [main] leaves behind when it returns: the exit code and
    the lines printed on the two streams. *)
Record Outcome : Type := mkOutcome {
  exit_code : Z;
  printed : list string;
  errors : list string
}.

(** What the web form shows. *)
Inductive Shown : Type :=
  | Markdown (text : string)
  | Warning (text : string).

(** The widgets of the web form, as the script reads them on one run. *)
Record Widgets : Type := mkWidgets {
  code_area : string;
  filename_input : string;
  review_code_clicked : bool;
  diff_file : option string;
  new_code_area : string;
  fname2_input : string;
  review_diff_clicked : bool
}.

Section Callers.

Context `{Ext : Externals} `{Hst : Host}.

(** [_read_stream_or_file(path, label)] with the unread part of standard
    input threaded through; standard input is a finite stream (a pipe or
    a file), of which [sys.stdin.read()] takes all that is left. *)
Definition _read_stream_or_file (path label : string) (stdin : string)
  : result string * string :=
  if String.eqb path "-" then (Ok stdin, "")
  else (open_read path, stdin).

Definition read_error (flag path : string) (e : exn) : string :=
  "ERROR: failed to read " +:+ flag +:+ " '" +:+ path +:+ "': " +:+ str_of_exn e.

Definition show (issues : list Issue) : string :=
  issues_to_markdown (Entries (map AnIssue issues)).

(** [main()] of review.py after [parser.parse_args()]; [Raise e] is an
    exception that leaves [main]. *)
Definition main (args : Namespace) (stdin : string) : result Outcome :=
  match _read_stream_or_file (args_file args) "file" stdin with
  | (Raise e, _) =>
      if isinstance e OSError then
        Ok (mkOutcome 2 [] [read_error "--file" (args_file args) e])
      else Raise e
  | (Ok code, stdin) =>
      issues <- review_code_string code (args_file args) ;;
      match args_diff args with
      | Some (String c r) =>
          match _read_stream_or_file (String c r) "diff" stdin with
          | (Raise e, _) =>
              if isinstance e OSError then
                Ok (mkOutcome 2 [] [read_error "--diff" (String c r) e])
              else Raise e
          | (Ok diff_text, _) =>
              issues <- filter_issues_to_changed_lines issues diff_text ;;
              Ok (mkOutcome 0 [show issues] [])
          end
      | _ => Ok (mkOutcome 0 [show issues] [])
      end
  end.

(** The first tab of app.py. *)
Definition tab1 (w : Widgets) : result (list Shown) :=
  if review_code_clicked w then
    issues <- review_code_string (code_area w) (filename_input w) ;;
    Ok [Markdown (show issues)]
  else Ok [].

Definition upload_warning : string := "Please upload a diff and paste the new code.".

(** The second tab: the [else] belongs to the test of the button. *)
Definition tab2 (w : Widgets) : result (list Shown) :=
  if review_diff_clicked w then
    match diff_file w, new_code_area w with
    | Some bytes, String c r =>
        let diff_text := decode_ignore bytes in
        issues <- review_code_string (String c r) (fname2_input w) ;;
        issues <- filter_issues_to_changed_lines issues diff_text ;;
        Ok [Markdown (show issues)]
    | _, _ => Ok []
    end
  else Ok [Warning upload_warning].

(** One run of the script: the two tabs in turn. *)
Definition app (w : Widgets) : result (list Shown) :=
  first <- tab1 w ;;
  second <- tab2 w ;;
  Ok (first ++ second).

End Callers.

(** The issues among the entries handed to the renderer. *)
Fixpoint issues_in (l : list entry) : list Issue :=
  match l with
  | [] => []
  | AnIssue i :: rest => i :: issues_in rest
  | Shapeless :: rest => issues_in rest
  end.

Fixpoint count_char (c : ascii) (s : string) : nat :=
  match s with
  | EmptyString => O
  | String a r => if Ascii.eqb a c then S (count_char c r) else count_char c r
  end.

Fixpoint ascii_only (s : string) : bool :=
  match s with
  | EmptyString => true
  | String c r => (Py.code c <? 128)%N && ascii_only r
  end.

Fixpoint no_space (s : string) : bool :=
  match s with
  | EmptyString => true
  | String c r => negb (Py.isspace_c c) && no_space r
  end.

(** The number a string of decimal digits denotes, most significant digit
    first, continuing from [acc]. *)
Fixpoint uint_value (acc : Z) (d : Decimal.uint) : Z :=
  match d with
  | Decimal.Nil => acc
  | Decimal.D0 r => uint_value (10 * acc) r
  | Decimal.D1 r => uint_value (10 * acc + 1) r
  | Decimal.D2 r => uint_value (10 * acc + 2) r
  | Decimal.D3 r => uint_value (10 * acc + 3) r
  | Decimal.D4 r => uint_value (10 * acc + 4) r
  | Decimal.D5 r => uint_value (10 * acc + 5) r
  | Decimal.D6 r => uint_value (10 * acc + 6) r
  | Decimal.D7 r => uint_value (10 * acc + 7) r
  | Decimal.D8 r => uint_value (10 * acc + 8) r
  | Decimal.D9 r => uint_value (10 * acc + 9) r
  end.

(** The line flake8 prints for a finding under the format
    [%(row)d|%(col)d|%(code)s|%(text)s]. *)
Definition flake8_format (row col : Z) (code_id text : string) : string :=
  Py.str_of_int row +:+ "|" +:+ Py.str_of_int col +:+ "|" +:+ code_id
    +:+ "|" +:+ text.

(** A host with one source file and two diffs on disk. *)
Definition sample_host : Host :=
  {| open_read := fun path =>
       if String.eqb path "snippet.py" then Ok sample_code
       else if String.eqb path "change.diff" then Ok diff_adds_line_2
       else if String.eqb path "utils.diff" then Ok diff_two_utils
       else Raise FileNotFoundError;
     str_of_exn := fun _ => "[Errno 2] No such file or directory";
     decode_ignore := fun bytes => bytes |}.

Definition sample_findings : list (Z * Z * string * string) :=
  [(2, 1, "E231", "missing whitespace after ','");
   (14, 80, "E501", "line too long (91 > 79 characters) | see setup.cfg")].

(** The web form with a diff uploaded, new code pasted and the second
    button pressed or not. *)
Definition sample_form (pressed : bool) (upload : option string) : Widgets :=
  mkWidgets "def add(a,b): return a+b/n" "snippet.py" false
    upload sample_code "snippet.py" pressed.

(** bandit prints a JSON array instead of an object. *)
Definition bandit_prints_array : Externals :=
  {| externals_unicode := sample_unicode;
     flake8_run := fun _ => Ok "";
     bandit_run := fun _ => Ok "[]";
     json_loads := fun s => if String.eqb s "[]" then Ok (PyList []) else Raise JSONDecodeError;
     cc_visit := sample_cc_visit;
     PatchSet := sample_PatchSet;
     py_str := fun _ => "" |}.

(* ===================================================================== *)
(** ** The changed-line map and the filter *)
(* ===================================================================== *)

Section DiffFacts.

Context `{Ext : Externals}.

Lemma filter_twice {A : Type} (f : A -> bool) (l : list A) :
  List.filter f (List.filter f l) = List.filter f l.
Proof.
  induction l as [|x l IH]; simpl; [reflexivity|].
  destruct (f x) eqn:Hx; simpl; [rewrite Hx, IH|]; auto.
Qed.

Lemma changed_step_skip changed pf :
  ~ contributes pf -> changed_step changed pf = changed.
Proof.
  unfold contributes, changed_step. intros Hn.
  destruct (is_removed_file pf); [reflexivity|].
  destruct (decide (added_lines pf = ∅)); [reflexivity|].
  exfalso. apply Hn. split; auto.
Qed.

Lemma changed_step_insert changed pf :
  contributes pf ->
  changed_step changed pf = <[ key_of pf := added_lines pf ]> changed.
Proof.
  unfold contributes, changed_step, key_of. intros [Hr Hne].
  rewrite Hr. destruct (decide (added_lines pf = ∅)); [contradiction|reflexivity].
Qed.

Lemma contributes_dec pf : {contributes pf} + {~ contributes pf}.
Proof.
  unfold contributes. destruct (is_removed_file pf).
  - right. intros [H _]. discriminate.
  - destruct (decide (added_lines pf = ∅)) as [He|Hne].
    + right. intros [_ H]. contradiction.
    + left. split; auto.
Qed.

(** Files after the last contributor of a key leave its entry alone. *)
Lemma changed_fold_other (k : string) (l : list PatchedFile) :
  forall changed : gmap string (gset Z),
  (forall pf, In pf l -> contributes pf -> key_of pf <> k) ->
  fold_left changed_step l changed !! k = changed !! k.
Proof.
  induction l as [|pf l IH]; intros changed Hl; simpl; [reflexivity|].
  rewrite IH by (intros q Hq; apply Hl; right; exact Hq).
  destruct (contributes_dec pf) as [Hc|Hc].
  - rewrite changed_step_insert by exact Hc.
    apply lookup_insert_ne. apply Hl; [left; reflexivity|exact Hc].
  - rewrite changed_step_skip by exact Hc. reflexivity.
Qed.

(** The entry of a key is the added-line set of its last contributor. *)
Lemma changed_last_contributor (before after : list PatchedFile) (pf : PatchedFile) :
  contributes pf ->
  (forall q, In q after -> contributes q -> key_of q <> key_of pf) ->
  changed_of_patch (before ++ pf :: after) !! key_of pf = Some (added_lines pf).
Proof.
  intros Hc Hafter. unfold changed_of_patch.
  rewrite fold_left_app. simpl.
  rewrite changed_fold_other by exact Hafter.
  rewrite changed_step_insert by exact Hc.
  apply lookup_insert_eq.
Qed.

Lemma changed_fold_empty (l : list PatchedFile) :
  (forall pf, In pf l -> ~ contributes pf) ->
  forall changed, fold_left changed_step l changed = changed.
Proof.
  induction l as [|pf l IH]; intros Hl changed; simpl; [reflexivity|].
  rewrite changed_step_skip by (apply Hl; left; reflexivity).
  apply IH. intros q Hq. apply Hl. right. exact Hq.
Qed.

Lemma added_fold_no_additions (hunk : Hunk) :
  Forall (fun ln => is_added ln = false) hunk ->
  forall added, fold_left added_step hunk added = added.
Proof.
  induction 1 as [|ln hunk Hln _ IH]; intros added; simpl; [reflexivity|].
  unfold added_step at 2. rewrite Hln. apply IH.
Qed.

Lemma added_lines_no_additions (pf : PatchedFile) :
  Forall (Forall (fun ln => is_added ln = false)) (hunks pf) ->
  added_lines pf = ∅.
Proof.
  intros H. unfold added_lines. generalize (∅ : gset Z).
  induction H as [|h hs Hh _ IH]; intros added; simpl; [reflexivity|].
  rewrite added_fold_no_additions by exact Hh. apply IH.
Qed.

Lemma filter_unfold issues diff_text ps :
  PatchSet diff_text = Ok ps ->
  filter_issues_to_changed_lines issues diff_text =
    if decide (changed_of_patch ps = ∅) then Ok issues
    else Ok (List.filter (on_changed_line (changed_of_patch ps)) issues).
Proof.
  intros Hps. unfold filter_issues_to_changed_lines, _changed_lines_from_diff.
  rewrite Hps. reflexivity.
Qed.

Lemma on_changed_line_true changed i added :
  changed !! _normalize_path (file i) = Some added ->
  line i ∈ added ->
  on_changed_line changed i = true.
Proof.
  intros Hk Hin. unfold on_changed_line. rewrite Hk.
  apply bool_decide_eq_true. exact Hin.
Qed.

Lemma on_changed_line_false changed i added :
  changed !! _normalize_path (file i) = Some added ->
  line i ∉ added ->
  on_changed_line changed i = false.
Proof.
  intros Hk Hin. unfold on_changed_line. rewrite Hk.
  apply bool_decide_eq_false. exact Hin.
Qed.

End DiffFacts.

(* ===================================================================== *)
(** ** Path normalisation *)
(* ===================================================================== *)

Lemma append_cons (a : ascii) (s t : string) :
  String a s +:+ t = String a (s +:+ t).
Proof. reflexivity. Qed.

Lemma append_snoc (cur : string) (c : ascii) (r : string) :
  Py.snoc cur c +:+ r = cur +:+ String c r.
Proof.
  unfold Py.snoc. induction cur as [|a cur IH]; [reflexivity|].
  rewrite !append_cons. f_equal. exact IH.
Qed.

Lemma append_empty_r (s : string) : s +:+ "" = s.
Proof.
  induction s as [|a s IH]; [reflexivity|]. rewrite append_cons. now f_equal.
Qed.

Lemma append_assoc (a b c : string) : (a +:+ b) +:+ c = a +:+ b +:+ c.
Proof.
  induction a as [|x a IH]; [reflexivity|]. rewrite !append_cons. now f_equal.
Qed.

Lemma after_last_slash_no_slash (n : string) :
  no_slash n = true -> forall cur, Py.after_last_slash cur n = cur +:+ n.
Proof.
  induction n as [|c n IH]; intros Hn cur.
  - simpl. now rewrite append_empty_r.
  - apply andb_prop in Hn as [Hc Hn]. apply negb_true_iff in Hc.
    change (Py.after_last_slash cur (String c n))
      with (if Ascii.eqb c "/" then Py.after_last_slash "" n
            else Py.after_last_slash (Py.snoc cur c) n).
    rewrite Hc, IH by exact Hn. apply append_snoc.
Qed.

Lemma after_last_slash_dir (d n : string) :
  no_slash n = true ->
  forall cur, Py.after_last_slash cur (d +:+ "/" +:+ n) = n.
Proof.
  intros Hn. induction d as [|c d IH]; intros cur.
  - change (Py.after_last_slash "" n = n). now rewrite after_last_slash_no_slash.
  - rewrite append_cons.
    change (Py.after_last_slash cur (String c (d +:+ "/" +:+ n)))
      with (if Ascii.eqb c "/" then Py.after_last_slash "" (d +:+ "/" +:+ n)
            else Py.after_last_slash (Py.snoc cur c) (d +:+ "/" +:+ n)).
    destruct (Ascii.eqb c "/"); apply IH.
Qed.

Lemma startswith_cons (a b : ascii) (p s : string) :
  Py.startswith (String b s) (String a p) = Ascii.eqb a b && Py.startswith s p.
Proof. reflexivity. Qed.

Lemma no_slash_cons (c : ascii) (r : string) :
  no_slash (String c r) = negb (Ascii.eqb c "/") && no_slash r.
Proof. reflexivity. Qed.

Lemma no_slash_not_prefixed (n : string) (c : ascii) :
  no_slash n = true -> Py.startswith n (String c "/") = false.
Proof.
  destruct n as [|a [|b r]]; intros Hn.
  - reflexivity.
  - rewrite startswith_cons. apply andb_false_r.
  - rewrite !no_slash_cons in Hn.
    apply andb_prop in Hn as [_ Hn]. apply andb_prop in Hn as [Hb _].
    apply negb_true_iff in Hb. rewrite Ascii.eqb_sym in Hb.
    rewrite !startswith_cons, Hb. apply andb_false_r.
Qed.

Lemma normalize_plain (n : string) : no_slash n = true -> _normalize_path n = n.
Proof.
  intros Hn. unfold _normalize_path.
  rewrite !no_slash_not_prefixed by exact Hn. simpl.
  unfold Py.basename. now rewrite after_last_slash_no_slash.
Qed.

Lemma normalize_a (s : string) : _normalize_path ("a/" +:+ s) = Py.basename s.
Proof. reflexivity. Qed.

Lemma normalize_b (s : string) : _normalize_path ("b/" +:+ s) = Py.basename s.
Proof. reflexivity. Qed.

Lemma normalize_other (p : string) :
  Py.startswith p "a/" = false -> Py.startswith p "b/" = false ->
  _normalize_path p = Py.basename p.
Proof. intros Ha Hb. unfold _normalize_path. now rewrite Ha, Hb. Qed.

Lemma basename_dir (d n : string) :
  no_slash n = true -> Py.basename (d +:+ "/" +:+ n) = n.
Proof. intros Hn. apply after_last_slash_dir. exact Hn. Qed.

Lemma basename_plain (n : string) : no_slash n = true -> Py.basename n = n.
Proof. intros Hn. unfold Py.basename. now rewrite after_last_slash_no_slash. Qed.

Section FilterClaims.

Context `{Ext : Externals}.

(** An issue on file [n] is kept against the entry of target [b/n] that
    adds the issue's line, unless a later file of the diff contributes to
    the same basename. *)
Lemma issue_matches_b_prefixed (n diff_text : string) (before after : list PatchedFile)
    (pf : PatchedFile) (issues : list Issue) (i : Issue) :
  no_slash n = true ->
  PatchSet diff_text = Ok (before ++ pf :: after) ->
  is_removed_file pf = false ->
  target_file pf = "b/" +:+ n ->
  (forall q, In q after -> contributes q -> key_of q <> n) ->
  file i = n ->
  line i ∈ added_lines pf ->
  In i issues ->
  exists kept, filter_issues_to_changed_lines issues diff_text = Ok kept /\ In i kept.
Proof.
  intros Hn Hps Hrm Htgt Hafter Hfile Hline Hin.
  assert (Hc : contributes pf).
  { split; [exact Hrm|]. intros He. rewrite He in Hline. set_solver. }
  assert (Hkey : key_of pf = n).
  { unfold key_of. rewrite Htgt, normalize_b. now apply basename_plain. }
  assert (Hlook : changed_of_patch (before ++ pf :: after) !! _normalize_path (file i)
                  = Some (added_lines pf)).
  { rewrite Hfile, normalize_plain by exact Hn. rewrite <- Hkey.
    apply changed_last_contributor; [exact Hc|]. now rewrite Hkey. }
  rewrite (filter_unfold _ _ _ Hps).
  destruct (decide (changed_of_patch (before ++ pf :: after) = ∅)) as [He|_].
  - rewrite He, lookup_empty in Hlook. discriminate.
  - eexists. split; [reflexivity|].
    apply filter_In. split; [exact Hin|].
    eapply on_changed_line_true; eauto.
Qed.

(** C4. Filtering twice with the same diff gives what filtering once
    gives: [filter_issues_to_changed_lines(filter_issues_to_changed_lines(
    issues, diff), diff) == filter_issues_to_changed_lines(issues, diff)],
    also when the diff parser raises (then both sides raise the same
    exception). *)
Theorem filter_issues_idempotent (issues : list Issue) (diff_text : string) :
  (once <- filter_issues_to_changed_lines issues diff_text ;;
   filter_issues_to_changed_lines once diff_text)
  = filter_issues_to_changed_lines issues diff_text.
Proof.
  unfold filter_issues_to_changed_lines, _changed_lines_from_diff.
  destruct (PatchSet diff_text) as [ps|e]; simpl; [|reflexivity].
  destruct (decide (changed_of_patch ps = ∅)) as [He|Hne]; simpl.
  - destruct (decide (changed_of_patch ps = ∅)); [reflexivity|contradiction].
  - destruct (decide (changed_of_patch ps = ∅)); [contradiction|].
    now rewrite filter_twice.
Qed.

(** C5. When the changed-line map computed from the diff text is empty,
    [filter_issues_to_changed_lines] returns the input sequence
    unchanged. *)
Theorem filter_issues_empty_map_noop (issues : list Issue) (diff_text : string) :
  _changed_lines_from_diff diff_text = Ok ∅ ->
  filter_issues_to_changed_lines issues diff_text = Ok issues.
Proof.
  intros Hc. unfold filter_issues_to_changed_lines. rewrite Hc. simpl.
  destruct (decide ((∅ : gmap string (gset Z)) = ∅)); [reflexivity|contradiction].
Qed.

(** A diff whose files are removed or carry no added line (the empty
    patch set among them) has an empty changed-line map. *)
Lemma changed_lines_empty_of_no_additions (diff_text : string) (ps : list PatchedFile) :
  PatchSet diff_text = Ok ps ->
  Forall (fun pf => is_removed_file pf = true \/
                    Forall (Forall (fun ln => is_added ln = false)) (hunks pf)) ps ->
  _changed_lines_from_diff diff_text = Ok ∅.
Proof.
  intros Hps Hall. unfold _changed_lines_from_diff. rewrite Hps. simpl.
  f_equal. unfold changed_of_patch. apply changed_fold_empty.
  intros pf Hin [Hrm Hne].
  rewrite Forall_forall in Hall. destruct (Hall pf) as [H|H].
  - now apply list_elem_of_In.
  - congruence.
  - apply Hne. now apply added_lines_no_additions.
Qed.

(** C6 (amended). [_normalize_path] drops a leading [a/] or [b/] and
    keeps what follows the last slash; so an issue on [snippet.py] is
    kept against a diff entry of target [b/snippet.py] that adds the
    issue's line, provided the entry is not a removed file and no later
    file of the diff that adds lines has the basename [snippet.py] (the
    entry that counts for a basename being the last one that adds
    lines). *)
Theorem normalize_path_matches_snippet :
  (forall s, _normalize_path ("a/" +:+ s) = Py.basename s) /\
  (forall s, _normalize_path ("b/" +:+ s) = Py.basename s) /\
  (forall p, Py.startswith p "a/" = false -> Py.startswith p "b/" = false ->
             _normalize_path p = Py.basename p) /\
  (forall d n, no_slash n = true -> Py.basename (d +:+ "/" +:+ n) = n) /\
  (forall n, no_slash n = true -> Py.basename n = n) /\
  (forall diff_text before pf after issues i,
      PatchSet diff_text = Ok (before ++ pf :: after) ->
      is_removed_file pf = false ->
      target_file pf = "b/snippet.py" ->
      (forall q, In q after -> contributes q -> key_of q <> "snippet.py") ->
      file i = "snippet.py" ->
      line i ∈ added_lines pf ->
      In i issues ->
      exists kept,
        filter_issues_to_changed_lines issues diff_text = Ok kept /\ In i kept).
Proof.
  split; [exact normalize_a|]. split; [exact normalize_b|].
  split; [exact normalize_other|]. split; [exact basename_dir|].
  split; [exact basename_plain|].
  intros diff_text before pf after issues i Hps Hrm Htgt Hafter Hfile Hline Hin.
  eapply (issue_matches_b_prefixed "snippet.py"); eauto.
Qed.

(** C9. When two files of a diff contribute to the same basename, the
    changed-line map holds the added-line set of the later one only, and
    an issue on a line that only the earlier file adds is filtered out. *)
Theorem changed_lines_later_file_overwrites (diff_text : string)
    (l1 l2 l3 : list PatchedFile) (f1 f2 : PatchedFile) :
  PatchSet diff_text = Ok (l1 ++ f1 :: l2 ++ f2 :: l3) ->
  contributes f1 ->
  contributes f2 ->
  key_of f1 = key_of f2 ->
  (forall q, In q l3 -> contributes q -> key_of q <> key_of f2) ->
  exists changed,
    _changed_lines_from_diff diff_text = Ok changed /\
    changed !! key_of f1 = Some (added_lines f2) /\
    forall issues i,
      _normalize_path (file i) = key_of f1 ->
      line i ∈ added_lines f1 ->
      line i ∉ added_lines f2 ->
      exists kept,
        filter_issues_to_changed_lines issues diff_text = Ok kept /\ ~ In i kept.
Proof.
  intros Hps Hc1 Hc2 Hkey Hafter.
  assert (Hlook : changed_of_patch (l1 ++ f1 :: l2 ++ f2 :: l3) !! key_of f1
                  = Some (added_lines f2)).
  { rewrite Hkey.
    replace (l1 ++ f1 :: l2 ++ f2 :: l3) with ((l1 ++ f1 :: l2) ++ f2 :: l3)
      by (rewrite <- app_assoc; reflexivity).
    now apply changed_last_contributor. }
  exists (changed_of_patch (l1 ++ f1 :: l2 ++ f2 :: l3)).
  split; [unfold _changed_lines_from_diff; now rewrite Hps|].
  split; [exact Hlook|].
  intros issues i Hfile _ Hnot.
  rewrite (filter_unfold _ _ _ Hps).
  destruct (decide (changed_of_patch (l1 ++ f1 :: l2 ++ f2 :: l3) = ∅)) as [He|_].
  - rewrite He, lookup_empty in Hlook. discriminate.
  - eexists. split; [reflexivity|].
    intros Hin. apply filter_In in Hin as [_ Hon].
    rewrite <- Hfile in Hlook.
    rewrite (on_changed_line_false _ _ _ Hlook Hnot) in Hon. discriminate.
Qed.

End FilterClaims.

(* ===================================================================== *)
(** ** The adapters *)
(* ===================================================================== *)

Section AdapterFacts.

Context `{Ext : Externals}.

Lemma int_of_str_raises (s : string) (e : exn) :
  Py.int_of_str s = Raise e -> e = ValueError.
Proof.
  unfold Py.int_of_str, Py.int_of_str_limited.
  destruct (Py.int_transform (Py.characters s)) as [t|]; [|congruence].
  destruct (Py.signed_digits (Py.strip_c t)); [|congruence].
  destruct (Py.exceeds_digit_limit _ t); congruence.
Qed.

(** A limit on the digits only adds [ValueError]s. *)
Lemma int_of_str_limited_raises (limit : nat) (s : string) (e : exn) :
  Py.int_of_str s = Raise e -> Py.int_of_str_limited limit s = Raise ValueError.
Proof.
  unfold Py.int_of_str, Py.int_of_str_limited.
  destruct (Py.int_transform (Py.characters s)) as [t|]; [|reflexivity].
  destruct (Py.signed_digits (Py.strip_c t)); [|reflexivity].
  unfold Py.exceeds_digit_limit at 1, Py.int_max_str_digits.
  rewrite andb_false_r. discriminate.
Qed.

Lemma chars_from_length (s : string) :
  (forall cur, (length (Py.chars_from cur s) <= S (String.length s))%nat) /\
  (length (Py.chars_from EmptyString s) <= String.length s)%nat.
Proof.
  induction s as [|b r [IH IH0]].
  - split; [intros [|c cur]|]; simpl; lia.
  - split; [intros cur|]; simpl; destruct (Py.is_continuation b).
    + specialize (IH (Py.snoc cur b)). lia.
    + specialize (IH (String b EmptyString)). destruct cur; simpl; lia.
    + specialize (IH (Py.snoc EmptyString b)). lia.
    + specialize (IH (String b EmptyString)). lia.
Qed.

Lemma length_append (a b : string) :
  String.length (a +:+ b) = (String.length a + String.length b)%nat.
Proof. induction a as [|c a IH]; simpl; [reflexivity|now rewrite IH]. Qed.

Lemma int_char_length (ch a : string) :
  Py.int_char ch = Some a -> String.length a = 1%nat.
Proof.
  unfold Py.int_char.
  assert (Hother :
    (if Py.isspace ch then Some (String " "%char EmptyString)
     else option_map (fun d => String (Py.chr (48 + d)) EmptyString)
            (unicode_decimal ch)) = Some a -> String.length a = 1%nat).
  { destruct (Py.isspace ch); [intros H; injection H as <-; reflexivity|].
    destruct (unicode_decimal ch); simpl; [|discriminate].
    intros H. injection H as <-. reflexivity. }
  destruct ch as [|b [|c r]]; try exact Hother.
  destruct (Py.code b <? 128)%N; [|exact Hother].
  intros H. injection H as <-. reflexivity.
Qed.

Lemma int_transform_length (l : list string) (t : string) :
  Py.int_transform l = Some t -> String.length t = length l.
Proof.
  revert t. induction l as [|ch l IH]; intros t; simpl.
  - intros H. injection H as <-. reflexivity.
  - destruct (Py.int_char ch) as [a|] eqn:Ha; [|discriminate].
    destruct (Py.int_transform l) as [t'|]; [|discriminate].
    intros H. injection H as <-.
    rewrite length_append, (int_char_length _ _ Ha), (IH t' eq_refl). reflexivity.
Qed.

Lemma count_digits_length (s : string) :
  (Py.count_digits s <= String.length s)%nat.
Proof. induction s as [|c s IH]; simpl; [lia|]. destruct (Py.isdigit c); lia. Qed.

(** No limit on the digits applies to a text of at most 640
    characters. *)
Lemma int_of_str_below_threshold (limit : nat) (s : string) :
  (String.length s <= 640)%nat -> Py.int_of_str_limited limit s = Py.int_of_str s.
Proof.
  intros Hlen. unfold Py.int_of_str, Py.int_of_str_limited.
  destruct (Py.int_transform (Py.characters s)) as [t|] eqn:Ht; [|reflexivity].
  destruct (Py.signed_digits (Py.strip_c t)); [|reflexivity].
  assert (Hno : forall k, Py.exceeds_digit_limit k t = false).
  { intros k. unfold Py.exceeds_digit_limit, Py.str_digits_check_threshold.
    apply int_transform_length in Ht.
    pose proof (proj2 (chars_from_length s)) as Hc. fold (Py.characters s) in Hc.
    pose proof (count_digits_length t) as Hd.
    assert (Hlt : (640 <? Py.count_digits t)%nat = false) by (apply Nat.ltb_ge; lia).
    now rewrite Hlt. }
  now rewrite !Hno.
Qed.

Lemma flake8_line_raises (hint ln : string) (e : exn) :
  flake8_line hint ln = Raise e -> e = ValueError.
Proof.
  unfold flake8_line.
  destruct (Py.split "|" 3 ln) as [|row [|col [|code_id [|text [|x rest]]]]];
    try (intros H; congruence).
  destruct (Py.int_of_str row) as [n|e'] eqn:Hrow; simpl; [discriminate|].
  intros H. injection H as <-. eapply int_of_str_raises; eauto.
Qed.

Lemma flake8_step_total (hint : string) (issues : list Issue) (ln : string) :
  flake8_step hint issues ln = Ok (issues ++ flake8_issues hint [ln]).
Proof.
  unfold flake8_step, flake8_issues, try_except. simpl.
  destruct (flake8_line hint ln) as [i|e] eqn:Hl; simpl.
  - reflexivity.
  - rewrite (flake8_line_raises _ _ _ Hl). simpl. now rewrite ?app_nil_r.
Qed.

Lemma flake8_loop_total (hint : string) (lines : list string) :
  forall issues,
    flake8_loop hint lines issues = Ok (issues ++ flake8_issues hint lines).
Proof.
  induction lines as [|ln lines IH]; intros issues; simpl.
  - now rewrite app_nil_r.
  - rewrite flake8_step_total. simpl. rewrite IH.
    unfold flake8_issues. simpl. now rewrite ?app_nil_r, <- app_assoc.
Qed.

Lemma flake8_issue_origin (hint : string) (lines : list string) (i : Issue) :
  In i (flake8_issues hint lines) ->
  tool i = "flake8" /\
  exists ln row col code_id text,
    In ln lines /\ Py.split "|" 3 ln = [row; col; code_id; text] /\
    Py.int_of_str row = Ok (line i).
Proof.
  unfold flake8_issues. rewrite in_flat_map. intros (ln & Hln & Hi).
  unfold flake8_line in Hi.
  destruct (Py.split "|" 3 ln) as [|row [|col [|code_id [|text [|x rest]]]]] eqn:Hs;
    try (simpl in Hi; contradiction).
  destruct (Py.int_of_str row) as [n|e] eqn:Hrow; simpl in Hi; [|contradiction].
  destruct Hi as [<-|[]]. split; [reflexivity|].
  exists ln, row, col, code_id, text. auto.
Qed.

Lemma run_flake8_missing (code hint : string) :
  flake8_run code = Raise FileNotFoundError ->
  run_flake8 code hint = Ok [flake8_missing hint].
Proof. intros H. unfold run_flake8. now rewrite H. Qed.

Lemma run_flake8_completed (code hint stdout : string) :
  flake8_run code = Ok stdout ->
  run_flake8 code hint = Ok (flake8_issues hint (Py.splitlines (Py.strip stdout))).
Proof. intros H. unfold run_flake8. rewrite H. apply flake8_loop_total. Qed.

Lemma bandit_result_ok (hint : string) (res : Py.value) (i : Issue) :
  bandit_result hint res = Ok i ->
  tool i = "bandit" /\
  exists v, Py.get res "line_number" (PyInt 1) = Ok v /\ Py.int v = Ok (line i).
Proof.
  unfold bandit_result.
  destruct (Py.get res "line_number" (PyInt 1)) as [v|] eqn:Hv; simpl; [|discriminate].
  destruct (Py.int v) as [n|] eqn:Hn; simpl; [|discriminate].
  destruct (Py.get res "issue_severity" PyNone) as [sv|]; simpl; [|discriminate].
  destruct (Py.upper_method _) as [sev|]; simpl; [|discriminate].
  destruct (Py.get res "test_id" _) as [rl|]; simpl; [|discriminate].
  destruct (Py.get res "issue_text" _) as [msg|]; simpl; [|discriminate].
  intros H. injection H as <-. simpl. split; [reflexivity|].
  exists v. auto.
Qed.

Lemma bandit_loop_origin (hint : string) (results : list Py.value) :
  forall issues out oe,
    bandit_loop hint results issues = (out, oe) ->
    forall i, In i out ->
      In i issues \/ exists res, In res results /\ bandit_result hint res = Ok i.
Proof.
  induction results as [|res results IH]; simpl; intros issues out oe H i Hi.
  - injection H as <- _. now left.
  - destruct (bandit_result hint res) as [j|e] eqn:Hres.
    + destruct (IH _ _ _ H i Hi) as [Hin|(r & Hr & Hok)].
      * apply in_app_or in Hin as [Hin|[<-|[]]]; [now left|].
        right. exists res. auto.
      * right. exists r. auto.
    + injection H as <- _. now left.
Qed.

Lemma bandit_loop_all_ok (hint : string) (results : list Py.value) (made : list Issue) :
  Forall2 (fun res i => bandit_result hint res = Ok i) results made ->
  forall issues, bandit_loop hint results issues = (issues ++ made, None).
Proof.
  induction 1 as [|res i results made Hres _ IH]; intros issues; simpl.
  - now rewrite app_nil_r.
  - rewrite Hres, IH, <- app_assoc. reflexivity.
Qed.

Lemma run_bandit_missing (code hint : string) :
  bandit_run code = Raise FileNotFoundError ->
  run_bandit code hint = Ok [bandit_missing hint].
Proof. intros H. unfold run_bandit. now rewrite H. Qed.

Lemma complexity_fold (hint : string) (thr : Z) (blocks : list Block) :
  forall issues,
    fold_left (complexity_step hint thr) blocks issues
    = issues ++ map (complexity_issue hint)
                    (List.filter (fun b => thr <=? complexity b) blocks).
Proof.
  induction blocks as [|b blocks IH]; intros issues; simpl.
  - now rewrite app_nil_r.
  - rewrite IH. unfold complexity_step.
    destruct (thr <=? complexity b); simpl; [|reflexivity].
    now rewrite <- app_assoc.
Qed.

Lemma run_complexity_spec (code hint : string) (thr : Z) (blocks : list Block) :
  cc_visit code = Ok blocks ->
  run_complexity code hint thr
  = Ok (map (complexity_issue hint)
            (List.filter (fun b => thr <=? complexity b) blocks)).
Proof.
  intros H. unfold run_complexity. rewrite H. simpl. now rewrite complexity_fold.
Qed.

Lemma get_raises (obj : Py.value) (key : string) (d : Py.value) (e : exn) :
  Py.get obj key d = Raise e -> e = AttributeError.
Proof.
  destruct obj; simpl; try congruence.
  destruct (Py.assoc key items); discriminate.
Qed.

Lemma int_raises (v : Py.value) (e : exn) :
  Py.int v = Raise e -> e = TypeError \/ e = ValueError \/ e = OverflowError.
Proof.
  destruct v as [|b|n|f|s|l|d]; simpl; try congruence; try (intros H; left; congruence).
  - destruct f; simpl; intros H; try discriminate.
    + right. right. congruence.
    + right. left. congruence.
  - intros H. right. left. eapply int_of_str_raises; eauto.
Qed.

(** What a turn of the loop can raise; never [JSONDecodeError]. *)
Lemma bandit_result_raises (hint : string) (res : Py.value) (e : exn) :
  bandit_result hint res = Raise e ->
  e = AttributeError \/ e = TypeError \/ e = ValueError \/ e = OverflowError.
Proof.
  unfold bandit_result.
  destruct (Py.get res "line_number" (PyInt 1)) as [v|e1] eqn:Hv; simpl.
  2:{ intros H. injection H as <-. left. eapply get_raises; eauto. }
  destruct (Py.int v) as [n|e1] eqn:Hn; simpl.
  2:{ intros H. injection H as <-. right. eapply int_raises; eauto. }
  destruct (Py.get res "issue_severity" PyNone) as [sv|e1] eqn:Hs; simpl.
  2:{ intros H. injection H as <-. left. eapply get_raises; eauto. }
  destruct (Py.upper_method _) as [sev|e1] eqn:Hu; simpl.
  2:{ intros H. injection H as <-. left.
      destruct (if Py.truthy sv then sv else PyStr "LOW"); simpl in Hu; congruence. }
  destruct (Py.get res "test_id" _) as [rl|e1] eqn:Hr; simpl.
  2:{ intros H. injection H as <-. left. eapply get_raises; eauto. }
  destruct (Py.get res "issue_text" _) as [msg|e1] eqn:Hm; simpl.
  2:{ intros H. injection H as <-. left. eapply get_raises; eauto. }
  discriminate.
Qed.

Lemma bandit_result_not_json_error (hint : string) (res : Py.value) (e : exn) :
  bandit_result hint res = Raise e -> isinstance e JSONDecodeError = false.
Proof.
  intros H. apply bandit_result_raises in H as [-> | [-> | [-> | ->]]]; reflexivity.
Qed.

(** The loop either converts every result or stops at the first one that
    raises. *)
Lemma bandit_loop_inv (hint : string) (results : list Py.value) :
  forall issues out oe,
    bandit_loop hint results issues = (out, oe) ->
    exists made,
      out = issues ++ made /\
      match oe with
      | None => Forall2 (fun res i => bandit_result hint res = Ok i) results made
      | Some e =>
          exists good bad rest,
            results = good ++ bad :: rest /\
            Forall2 (fun res i => bandit_result hint res = Ok i) good made /\
            bandit_result hint bad = Raise e
      end.
Proof.
  induction results as [|res results IH]; simpl; intros issues out oe H.
  - injection H as <- <-. exists []. split; [now rewrite app_nil_r|constructor].
  - destruct (bandit_result hint res) as [i|e] eqn:Hres.
    + destruct (IH _ _ _ H) as (made & -> & Hoe).
      exists (i :: made). split; [now rewrite <- app_assoc|].
      destruct oe as [e|].
      * destruct Hoe as (good & bad & rest & -> & Hgood & Hbad).
        exists (res :: good), bad, rest. repeat split; auto.
      * constructor; auto.
    + injection H as <- <-. exists []. split; [now rewrite app_nil_r|].
      exists [], res, results. repeat split; auto.
Qed.

End AdapterFacts.

Section ReviewFacts.

Context `{Ext : Externals}.

Lemma get_dict (items : list (string * Py.value)) (key : string) (d : Py.value) :
  Py.get (PyDict items) key d
  = Ok (match Py.assoc key items with Some v => v | None => d end).
Proof. unfold Py.get. now destruct (Py.assoc key items). Qed.

Lemma int_reported_line (items : list (string * Py.value)) :
  convertible_line items ->
  Py.int (match Py.assoc "line_number" items with Some v => v | None => PyInt 1 end)
  = Ok (reported_line items).
Proof.
  unfold convertible_line, reported_line.
  destruct (Py.assoc "line_number" items) as [v|]; [|reflexivity].
  intros [[n Hn] _]. now rewrite Hn.
Qed.

Lemma upper_reported_severity (items : list (string * Py.value)) :
  textual_severity items ->
  Py.upper_method
    (let v := match Py.assoc "issue_severity" items with
              | Some v => v | None => PyNone end in
     if Py.truthy v then v else PyStr "LOW")
  = Ok (reported_severity items).
Proof.
  unfold textual_severity, reported_severity.
  destruct (Py.assoc "issue_severity" items) as [v|]; [|reflexivity].
  intros Hs. cbv zeta. destruct (Py.truthy v) eqn:Ht.
  - destruct (Hs eq_refl) as [s ->]. destruct s; [discriminate|reflexivity].
  - destruct v as [|b|n|f|s|l|d]; try reflexivity.
    + destruct s; [reflexivity|discriminate].
Qed.

Lemma bandit_result_reported (hint : string) (items : list (string * Py.value)) :
  convertible_line items ->
  textual_severity items ->
  bandit_result hint (PyDict items) = Ok (reported_issue hint items).
Proof.
  intros Hline Hsev. unfold bandit_result. rewrite !get_dict.
  unfold bind at 1. unfold bind at 1. rewrite (int_reported_line _ Hline).
  unfold bind at 1. unfold bind at 1.
  pose proof (upper_reported_severity _ Hsev) as Hu. cbv zeta in Hu. rewrite Hu.
  reflexivity.
Qed.

Lemma annotate_fields (i : Issue) :
  line (annotate i) = line i /\ tool (annotate i) = tool i /\
  suggestion (annotate i) = friendly_suggestion (annotate i).
Proof. repeat split. Qed.

Lemma review_inv (code hint : string) (issues : list Issue) :
  review_code_string code hint = Ok issues ->
  exists f8 bd cx,
    run_flake8 code hint = Ok f8 /\ run_bandit code hint = Ok bd /\
    run_complexity code hint default_cc_threshold = Ok cx /\
    issues = map annotate (f8 ++ bd ++ cx).
Proof.
  unfold review_code_string.
  destruct (run_flake8 code hint) as [f8|]; simpl; [|discriminate].
  destruct (run_bandit code hint) as [bd|]; simpl; [|discriminate].
  destruct (run_complexity code hint default_cc_threshold) as [cx|]; simpl;
    [|discriminate].
  intros H. injection H as <-. exists f8, bd, cx. auto.
Qed.

Lemma run_flake8_origin (code hint : string) (f8 : list Issue) (i : Issue) :
  run_flake8 code hint = Ok f8 -> In i f8 ->
  tool i = "flake8" /\
  (line i = 1 \/
   exists stdout ln row col code_id text,
     flake8_run code = Ok stdout /\ In ln (Py.splitlines (Py.strip stdout)) /\
     Py.split "|" 3 ln = [row; col; code_id; text] /\
     Py.int_of_str row = Ok (line i)).
Proof.
  unfold run_flake8. destruct (flake8_run code) as [stdout|e] eqn:Hrun.
  - rewrite flake8_loop_total. simpl. intros H Hi. injection H as <-.
    apply flake8_issue_origin in Hi as (Ht & ln & row & col & cid & text & H1 & H2 & H3).
    split; [exact Ht|]. right. exists stdout, ln, row, col, cid, text. auto.
  - destruct (isinstance e FileNotFoundError); [|discriminate].
    intros H Hi. injection H as <-. destruct Hi as [<-|[]]. simpl. auto.
Qed.

Lemma run_bandit_origin (code hint : string) (bd : list Issue) (i : Issue) :
  run_bandit code hint = Ok bd -> In i bd ->
  tool i = "bandit" /\
  (line i = 1 \/
   exists stdout data results res v,
     bandit_run code = Ok stdout /\
     json_loads (if String.eqb stdout "" then "{}" else stdout) = Ok data /\
     (r <- Py.get data "results" (PyList []) ;; Py.iter r) = Ok results /\
     In res results /\
     Py.get res "line_number" (PyInt 1) = Ok v /\ Py.int v = Ok (line i)).
Proof.
  unfold run_bandit. destruct (bandit_run code) as [stdout|e] eqn:Hrun.
  - destruct (bandit_body hint stdout) as [out oe] eqn:Hbody.
    intros H Hi.
    assert (Hout : bd = out).
    { destruct oe as [e|]; [destruct (isinstance e JSONDecodeError)|]; congruence. }
    subst out. clear H. unfold bandit_body in Hbody.
    destruct (json_loads _) as [data|e] eqn:Hdata.
    2:{ injection Hbody as <- _. destruct Hi. }
    destruct (r <- Py.get data "results" (PyList []);; Py.iter r)
      as [results|e] eqn:Hres.
    2:{ injection Hbody as <- _. destruct Hi. }
    destruct (bandit_loop_origin _ _ _ _ _ Hbody i Hi) as [[]|(res & Hin & Hok)].
    apply bandit_result_ok in Hok as (Ht & v & Hv & Hn).
    split; [exact Ht|]. right. exists stdout, data, results, res, v.
    repeat split; assumption.
  - destruct (isinstance e FileNotFoundError); [|discriminate].
    intros H Hi. injection H as <-. destruct Hi as [<-|[]]. simpl. auto.
Qed.

Lemma run_complexity_origin (code hint : string) (thr : Z) (cx : list Issue)
    (i : Issue) :
  run_complexity code hint thr = Ok cx -> In i cx ->
  tool i = "complexity" /\
  exists blocks b, cc_visit code = Ok blocks /\ In b blocks /\ line i = lineno b.
Proof.
  unfold run_complexity. destruct (cc_visit code) as [blocks|e] eqn:Hcc; simpl;
    [|discriminate].
  rewrite complexity_fold. simpl. intros H Hi. injection H as <-.
  apply in_map_iff in Hi as (b & <- & Hb). apply filter_In in Hb as [Hb _].
  split; [reflexivity|]. exists blocks, b. auto.
Qed.

Lemma run_flake8_reported (code hint : string) (f8 : list Issue) (i : Issue) :
  run_flake8 code hint = Ok f8 -> In i f8 -> line_reported code i.
Proof.
  unfold run_flake8. destruct (flake8_run code) as [stdout|e] eqn:Hrun.
  - rewrite flake8_loop_total. simpl. intros H Hi. injection H as <-.
    apply flake8_issue_origin in Hi as (Ht & ln & row & col & cid & text & H1 & H2 & H3).
    left. split; [exact Ht|]. right. exists stdout, ln, row, col, cid, text. auto.
  - destruct (isinstance e FileNotFoundError) eqn:He; [|discriminate].
    intros H Hi. injection H as <-. destruct Hi as [<-|[]].
    left. split; [reflexivity|]. left. exists e. auto.
Qed.

Lemma run_flake8_covers (code hint : string) (f8 : list Issue)
    (stdout ln row col code_id text : string) (n : Z) :
  run_flake8 code hint = Ok f8 ->
  flake8_run code = Ok stdout ->
  In ln (Py.splitlines (Py.strip stdout)) ->
  Py.split "|" 3 ln = [row; col; code_id; text] ->
  Py.int_of_str row = Ok n ->
  exists i, In i f8 /\ tool i = "flake8" /\ line i = n.
Proof.
  intros H Hrun Hln Hs Hrow. rewrite (run_flake8_completed _ _ _ Hrun) in H.
  injection H as <-.
  exists (new_Issue hint n "LOW" "flake8" (PyStr code_id) (PyStr text)).
  split; [|split; reflexivity].
  unfold flake8_issues. apply in_flat_map. exists ln. split; [exact Hln|].
  unfold flake8_line. rewrite Hs, Hrow. simpl. now left.
Qed.

Lemma run_bandit_reported (code hint : string) (bd : list Issue) (i : Issue) :
  run_bandit code hint = Ok bd -> In i bd -> line_reported code i.
Proof.
  unfold run_bandit. destruct (bandit_run code) as [stdout|e] eqn:Hrun.
  - destruct (bandit_body hint stdout) as [out oe] eqn:Hbody.
    intros H Hi.
    assert (Hout : bd = out).
    { destruct oe as [e|]; [destruct (isinstance e JSONDecodeError)|]; congruence. }
    subst out. clear H. unfold bandit_body in Hbody.
    destruct (json_loads _) as [data|e] eqn:Hdata.
    2:{ injection Hbody as <- _. destruct Hi. }
    destruct (r <- Py.get data "results" (PyList []);; Py.iter r)
      as [results|e] eqn:Hres.
    2:{ injection Hbody as <- _. destruct Hi. }
    destruct (bandit_loop_origin _ _ _ _ _ Hbody i Hi) as [[]|(res & Hin & Hok)].
    apply bandit_result_ok in Hok as (Ht & v & Hv & Hn).
    right. left. split; [exact Ht|]. right. exists stdout, data, results, res, v.
    repeat split; assumption.
  - destruct (isinstance e FileNotFoundError) eqn:He; [|discriminate].
    intros H Hi. injection H as <-. destruct Hi as [<-|[]].
    right. left. split; [reflexivity|]. left. exists e. auto.
Qed.

Lemma Forall2_In_l {A B : Type} (R : A -> B -> Prop) (l : list A) (l' : list B)
    (x : A) :
  Forall2 R l l' -> In x l -> exists y, In y l' /\ R x y.
Proof.
  induction 1 as [|a b l l' Hab _ IH]; intros Hx; [destruct Hx|].
  destruct Hx as [<-|Hx].
  - exists b. split; [now left|exact Hab].
  - destruct (IH Hx) as (y & Hy & Hxy). exists y. split; [now right|exact Hxy].
Qed.

Lemma run_bandit_covers (code hint : string) (bd : list Issue) (stdout : string)
    (data : Py.value) (results : list Py.value) (res : Py.value) :
  run_bandit code hint = Ok bd ->
  bandit_run code = Ok stdout ->
  json_loads (if String.eqb stdout "" then "{}" else stdout) = Ok data ->
  (r <- Py.get data "results" (PyList []) ;; Py.iter r) = Ok results ->
  In res results ->
  exists i v,
    In i bd /\ tool i = "bandit" /\
    Py.get res "line_number" (PyInt 1) = Ok v /\ Py.int v = Ok (line i).
Proof.
  intros H Hrun Hj Hr Hin. unfold run_bandit, bandit_body in H.
  rewrite Hrun, Hj, Hr in H.
  destruct (bandit_loop hint results []) as [out oe] eqn:Hloop.
  destruct (bandit_loop_inv _ _ _ _ _ Hloop) as (made & -> & Hoe).
  destruct oe as [e|].
  - destruct Hoe as (good & bad & rest & _ & _ & Hbad).
    rewrite (bandit_result_not_json_error _ _ _ Hbad) in H. discriminate.
  - injection H as <-.
    destruct (Forall2_In_l _ _ _ _ Hoe Hin) as (i & Hi & Hok).
    apply bandit_result_ok in Hok as (Ht & v & Hv & Hn).
    exists i, v. repeat split; assumption.
Qed.

Lemma run_complexity_reported (code hint : string) (cx : list Issue) (i : Issue) :
  run_complexity code hint default_cc_threshold = Ok cx -> In i cx ->
  line_reported code i.
Proof.
  unfold run_complexity. destruct (cc_visit code) as [blocks|e] eqn:Hcc; simpl;
    [|discriminate].
  rewrite complexity_fold. simpl. intros H Hi. injection H as <-.
  apply in_map_iff in Hi as (b & <- & Hb). apply filter_In in Hb as [Hb Hthr].
  right. right. split; [reflexivity|]. exists blocks, b.
  apply Z.leb_le in Hthr. auto.
Qed.

Lemma run_complexity_covers (code hint : string) (cx : list Issue)
    (blocks : list Block) (b : Block) :
  run_complexity code hint default_cc_threshold = Ok cx ->
  cc_visit code = Ok blocks -> In b blocks ->
  default_cc_threshold <= complexity b ->
  exists i, In i cx /\ tool i = "complexity" /\ line i = lineno b.
Proof.
  intros H Hcc Hb Hthr. rewrite (run_complexity_spec _ _ _ _ Hcc) in H.
  injection H as <-. exists (complexity_issue hint b).
  split; [|split; reflexivity].
  apply in_map, filter_In. split; [exact Hb|]. now apply Z.leb_le.
Qed.

Lemma line_reported_annotate (code : string) (i : Issue) :
  line_reported code i -> line_reported code (annotate i).
Proof. intros H. exact H. Qed.

Lemma friendly_suggestion_known (i : Issue) :
  known_tool i -> friendly_suggestion i <> None.
Proof.
  unfold known_tool, friendly_suggestion.
  intros [H|[H|H]]; rewrite H; simpl; discriminate.
Qed.

Lemma review_issue_tool (code hint : string) (issues : list Issue) (i : Issue) :
  review_code_string code hint = Ok issues -> In i issues -> known_tool i.
Proof.
  intros H Hi. apply review_inv in H as (f8 & bd & cx & H8 & Hb & Hc & ->).
  apply in_map_iff in Hi as (j & <- & Hj). unfold known_tool. simpl.
  apply in_app_or in Hj as [Hj|Hj]; [|apply in_app_or in Hj as [Hj|Hj]].
  - left. eapply run_flake8_origin; eauto.
  - right. left. eapply run_bandit_origin; eauto.
  - right. right. eapply run_complexity_origin; eauto.
Qed.

End ReviewFacts.

Section AdapterClaims.

Context `{Ext : Externals}.

(** C1 (amended). For the result records of a security report whose line
    number is absent or something [int()] converts (a text of at most
    640 characters when it is a text, so that no limit on the digits
    applies) and whose severity is absent, falsy or a string,
    [run_bandit] yields one Issue per record with line = the reported
    number (1 when absent), severity = the reported text in upper case
    (LOW by default), rule = the reported check id (BXXX when absent)
    and message = the reported description (a generic phrase when
    absent). *)
Theorem run_bandit_reported_fields (code hint stdout : string)
    (top : list (string * Py.value)) (records : list (list (string * Py.value))) :
  bandit_run code = Ok stdout ->
  json_loads (if String.eqb stdout "" then "{}" else stdout) = Ok (PyDict top) ->
  Py.assoc "results" top = Some (PyList (map PyDict records)) ->
  Forall (fun items => convertible_line items /\ textual_severity items) records ->
  run_bandit code hint = Ok (map (reported_issue hint) records).
Proof.
  intros Hrun Hjson Hres Hall. unfold run_bandit, bandit_body.
  rewrite Hrun, Hjson, get_dict, Hres. simpl.
  rewrite (bandit_loop_all_ok hint _ (map (reported_issue hint) records)).
  - reflexivity.
  - clear Hres. induction Hall as [|items records [Hl Hs] _ IH]; simpl; constructor.
    + now apply bandit_result_reported.
    + exact IH.
Qed.

(** C3 (amended). Every Issue returned by [review_code_string] carries
    one of the three tool tags ([flake8] for style, [bandit] for
    security, [complexity]), and its line is a line number that this
    tool reported for the code: what [int()] makes of the row of a line
    of flake8 with four fields, what [int()] makes of the line number of
    a result of bandit (1 for a result without one), the first line of
    a block of radon at or above the threshold 3, or the 1 of the Issue
    that stands for a launch that raised [FileNotFoundError].
    Conversely every line number so reported is the line of an Issue of
    the list with the tool's tag.  Hence the line is at least 1 provided
    every line number the analysers report is at least 1. *)
Theorem review_issue_line_and_tool (code hint : string) (issues : list Issue) :
  review_code_string code hint = Ok issues ->
  (forall i, In i issues ->
     tool i = "flake8" \/ tool i = "bandit" \/ tool i = "complexity") /\
  (forall i, In i issues -> line_reported code i) /\
  reports_covered code issues /\
  (positive_line_reports code -> forall i, In i issues -> 1 <= line i).
Proof.
  intros H.
  assert (Hrep : forall i, In i issues -> line_reported code i).
  { intros i Hi. apply review_inv in H as (f8 & bd & cx & H8 & Hb & Hc & ->).
    apply in_map_iff in Hi as (j & <- & Hj). apply line_reported_annotate.
    apply in_app_or in Hj as [Hj|Hj]; [|apply in_app_or in Hj as [Hj|Hj]].
    - eapply run_flake8_reported; eauto.
    - eapply run_bandit_reported; eauto.
    - eapply run_complexity_reported; eauto. }
  split; [|split; [exact Hrep|split]].
  - intros i Hi. destruct (Hrep i Hi) as [[Ht _]|[[Ht _]|[Ht _]]]; auto.
  - apply review_inv in H as (f8 & bd & cx & H8 & Hb & Hc & ->).
    split; [|split].
    + intros stdout ln row col code_id text n Hrun Hln Hs Hrow.
      destruct (run_flake8_covers _ _ _ _ _ _ _ _ _ _ H8 Hrun Hln Hs Hrow)
        as (i & Hi & Ht & Hl).
      exists (annotate i). split; [|split; assumption].
      apply in_map, in_or_app. now left.
    + intros stdout data results res Hrun Hj Hr Hin.
      destruct (run_bandit_covers _ _ _ _ _ _ _ Hb Hrun Hj Hr Hin)
        as (i & v & Hi & Ht & Hv & Hn).
      exists (annotate i), v. split; [|repeat split; assumption].
      apply in_map, in_or_app. right. apply in_or_app. now left.
    + intros blocks b Hcc Hin Hthr.
      destruct (run_complexity_covers _ _ _ _ _ Hc Hcc Hin Hthr) as (i & Hi & Ht & Hl).
      exists (annotate i). split; [|split; assumption].
      apply in_map, in_or_app. right. apply in_or_app. now right.
  - intros (Pf & Pb & Pc) i Hi.
    destruct (Hrep i Hi) as [[_ Hl]|[[_ Hl]|[_ Hl]]].
    + destruct Hl as [(e & _ & _ & ->)|(so & ln & row & col & cid & tx & H1 & H2 & H3 & H4)];
        [lia|]. eapply Pf; eauto.
    + destruct Hl as [(e & _ & _ & ->)|(so & d & rs & res & v & H1 & H2 & H3 & H4 & H5 & H6)];
        [lia|]. eapply Pb; eauto.
    + destruct Hl as (bl & b & H1 & H2 & _ & ->). eapply Pc; eauto.
Qed.

(** C7. [run_complexity] emits an Issue (severity MEDIUM, tool
    complexity, rule CC, a message naming the function and its score)
    for exactly the blocks whose complexity is at least the threshold,
    in their order; a block at the threshold is reported, one below is
    not; the default threshold is 3. *)
Theorem run_complexity_reports_at_threshold (code hint : string) (thr : Z)
    (blocks : list Block) :
  cc_visit code = Ok blocks ->
  exists reported,
    run_complexity code hint thr = Ok (map (complexity_issue hint) reported) /\
    reported = List.filter (fun b => thr <=? complexity b) blocks /\
    (forall b, In b reported <-> In b blocks /\ thr <= complexity b) /\
    (forall b,
        file (complexity_issue hint b) = hint /\
        line (complexity_issue hint b) = lineno b /\
        severity (complexity_issue hint b) = "MEDIUM" /\
        tool (complexity_issue hint b) = "complexity" /\
        rule (complexity_issue hint b) = PyStr "CC" /\
        exists msg,
          message (complexity_issue hint b) = PyStr msg /\
          Contains (name b) msg /\
          Contains (Py.str_of_int (complexity b)) msg) /\
    default_cc_threshold = 3.
Proof.
  intros Hcc. eexists. split; [apply run_complexity_spec; exact Hcc|].
  split; [reflexivity|]. split; [|split; [|reflexivity]].
  - intros b. rewrite filter_In, Z.leb_le. reflexivity.
  - intros b. repeat (split; [reflexivity|]).
    eexists. split; [reflexivity|]. split.
    + exists "Function '", ("' is too complex (CC="
                             +:+ Py.str_of_int (complexity b) +:+ ")."). reflexivity.
    + exists ("Function '" +:+ name b +:+ "' is too complex (CC="), ").".
      now rewrite !append_assoc.
Qed.

(** C10. Every Issue returned by [review_code_string] has a suggestion:
    its tool is one of the three keys of [friendly_suggestion], also for
    the synthetic INSTALL issues, so the branch without a suggestion is
    never taken. *)
Theorem review_issues_have_suggestion (code hint : string) (issues : list Issue) :
  review_code_string code hint = Ok issues ->
  forall i, In i issues ->
    known_tool i /\
    suggestion i = friendly_suggestion i /\
    suggestion i <> None.
Proof.
  intros H i Hi. pose proof (review_issue_tool _ _ _ _ H Hi) as Hk.
  apply review_inv in H as (f8 & bd & cx & _ & _ & _ & ->).
  apply in_map_iff in Hi as (j & <- & _).
  split; [exact Hk|]. split; [reflexivity|].
  apply (friendly_suggestion_known (annotate j)). exact Hk.
Qed.

End AdapterClaims.

(* ===================================================================== *)
(** ** The renderer *)
(* ===================================================================== *)

Lemma Contains_here (sub rest : string) : Contains sub (sub +:+ rest).
Proof. exists "", rest. reflexivity. Qed.

Lemma Contains_skip (sub a rest : string) :
  Contains sub rest -> Contains sub (a +:+ rest).
Proof.
  intros (pre & post & ->). exists (a +:+ pre), post. now rewrite append_assoc.
Qed.

Lemma Contains_refl (s : string) : Contains s s.
Proof. exists "", "". now rewrite append_empty_r. Qed.

Lemma Contains_empty (s : string) : Contains "" s.
Proof. exists "", s. reflexivity. Qed.

Lemma Contains_here3 (a b c rest : string) :
  Contains (a +:+ b +:+ c) (a +:+ b +:+ c +:+ rest).
Proof. exists "", rest. now rewrite !append_assoc. Qed.

Section RendererClaims.

Context `{Ext : Externals}.

Lemma markdown_single (i : Issue) :
  issues_to_markdown (Entries [AnIssue i])
  = "### Review Comments" +:+ String Py.LF "" +:+ markdown_line i.
Proof. reflexivity. Qed.

Lemma markdown_contains (f : string) (l : Z) (sev tl : string) (r m : Py.value)
    (tip : string) :
  let out :=
    issues_to_markdown (Entries [AnIssue (mkIssue f l sev tl r m (Some tip))]) in
  Contains (Py.upper tl) out /\
  Contains (format_value r) out /\
  Contains sev out /\
  Contains (f +:+ ":" +:+ Py.str_of_int l) out /\
  Contains (format_value m) out /\
  Contains tip out /\
  (tip <> "" -> Contains (" Tip: " +:+ tip) out).
Proof.
  intros out. subst out.
  rewrite markdown_single. unfold markdown_line. simpl file; simpl line;
    simpl severity; simpl tool; simpl rule; simpl message.
  repeat split.
  - do 3 apply Contains_skip. apply Contains_here.
  - do 5 apply Contains_skip. apply Contains_here.
  - do 7 apply Contains_skip. apply Contains_here.
  - do 10 apply Contains_skip. apply Contains_here3.
  - do 14 apply Contains_skip. apply Contains_here.
  - do 15 apply Contains_skip. unfold tip_of. simpl suggestion.
    destruct tip as [|c t]; [apply Contains_empty|].
    apply Contains_skip, Contains_refl.
  - intros Hne. do 15 apply Contains_skip. unfold tip_of. simpl suggestion.
    destruct tip as [|c t]; [contradiction|]. apply Contains_refl.
Qed.

(** C8. [issues_to_markdown] returns a plain string unchanged; for zero
    issues it returns the fixed success message; for one Issue with a
    suggestion the output is the heading and one line that holds the
    tool name in upper case, the rule, the severity, [file:line], the
    message and the tip text, in this order: with a rule [r] and a
    message [m] that are strings the texts [r] and [m] themselves, with
    other values what an f-string prints for them.  The three tool tags
    of the adapters come out as FLAKE8, BANDIT and COMPLEXITY. *)
Theorem issues_to_markdown_renders :
  (forall s, issues_to_markdown (Text s) = s) /\
  issues_to_markdown (Entries []) = "✅ No issues found. Great job!" /\
  (forall f l sev tl r m tip,
      let out :=
        issues_to_markdown
          (Entries [AnIssue (mkIssue f l sev tl (PyStr r) (PyStr m) (Some tip))]) in
      out = "### Review Comments" +:+ String Py.LF ""
            +:+ "- **" +:+ Py.upper tl +:+ " " +:+ r +:+ "** (" +:+ sev +:+ ") at `"
            +:+ f +:+ ":" +:+ Py.str_of_int l +:+ "` — " +:+ m
            +:+ match tip with
                | EmptyString => EmptyString
                | _ => " Tip: " +:+ tip
                end /\
      Contains (Py.upper tl) out /\
      Contains r out /\
      Contains sev out /\
      Contains (f +:+ ":" +:+ Py.str_of_int l) out /\
      Contains m out /\
      Contains tip out /\
      (tip <> "" -> Contains (" Tip: " +:+ tip) out)) /\
  (forall f l sev tl r m tip,
      let out :=
        issues_to_markdown (Entries [AnIssue (mkIssue f l sev tl r m (Some tip))]) in
      Contains (Py.upper tl) out /\
      Contains (format_value r) out /\
      Contains sev out /\
      Contains (f +:+ ":" +:+ Py.str_of_int l) out /\
      Contains (format_value m) out /\
      Contains tip out /\
      (tip <> "" -> Contains (" Tip: " +:+ tip) out)) /\
  Py.upper "flake8" = "FLAKE8" /\
  Py.upper "bandit" = "BANDIT" /\
  Py.upper "complexity" = "COMPLEXITY" /\
  issues_to_markdown (Entries [AnIssue (annotate style_issue_line_2)])
  = "### Review Comments
- **FLAKE8 E231** (LOW) at `snippet.py:2` — missing whitespace after ',' Tip: Follow PEP 8 (naming, spacing, line length) for readability.".
Proof.
  split; [reflexivity|]. split; [reflexivity|]. split; [|split].
  - intros f l sev tl r m tip out. split.
    + subst out. rewrite markdown_single. unfold markdown_line, tip_of.
      simpl file; simpl line; simpl severity; simpl tool; simpl rule;
        simpl message; simpl suggestion.
      change (format_value (PyStr r)) with r. change (format_value (PyStr m)) with m.
      destruct tip; reflexivity.
    + exact (markdown_contains f l sev tl (PyStr r) (PyStr m) tip).
  - intros f l sev tl r m tip. exact (markdown_contains f l sev tl r m tip).
  - repeat split; reflexivity.
Qed.

End RendererClaims.

(* ===================================================================== *)
(** ** The claims on the sample runs *)
(* ===================================================================== *)

(** C1, as stated, fails: a record whose line number is not a number
    makes [run_bandit] raise [ValueError]; no Issue with line 1 is
    produced. *)
Lemma bandit_invalid_line_number_raises :
  reported_line (Ext := bandit_bad_line) bad_line_record = 1 /\
  bandit_result (Ext := bandit_bad_line) "snippet.py" (PyDict bad_line_record)
  = Raise ValueError /\
  @run_bandit bandit_bad_line sample_code "snippet.py" = Raise ValueError /\
  ~ (exists issues, @run_bandit bandit_bad_line sample_code "snippet.py" = Ok issues).
Proof.
  repeat split; try reflexivity.
  intros [issues H]. vm_compute in H. discriminate.
Qed.

Lemma run_bandit_reported_fields_witness :
  @run_bandit sample_run sample_code "snippet.py"
  = Ok [mkIssue "snippet.py" 5 "MEDIUM" "bandit" (PyStr "B307")
          (PyStr "Use of possibly insecure function") None;
        mkIssue "snippet.py" 1 "LOW" "bandit" (PyStr "BXXX") (PyStr "note") None] /\
  @run_bandit bandit_text_lines sample_code "snippet.py"
  = Ok [mkIssue "snippet.py" 12 "ÉLEVÉ" "bandit" (PyStr "BXXX")
          (PyStr "Security issue") None;
        mkIssue "snippet.py" 3 "LOW" "bandit" (PyStr "BXXX")
          (PyStr "Security issue") None].
Proof.
  split.
  - refine (run_bandit_reported_fields (Ext := sample_run) sample_code "snippet.py"
              report_ok
              [("results",
                PyList [PyDict [("line_number", PyInt 5);
                                ("issue_severity", PyStr "medium");
                                ("test_id", PyStr "B307");
                                ("issue_text", PyStr "Use of possibly insecure function")];
                        PyDict [("issue_text", PyStr "note")]])]
              [[("line_number", PyInt 5); ("issue_severity", PyStr "medium");
                ("test_id", PyStr "B307");
                ("issue_text", PyStr "Use of possibly insecure function")];
               [("issue_text", PyStr "note")]]
              eq_refl eq_refl eq_refl _).
    repeat constructor.
    + exists 5. reflexivity.
    + intros _. exists "medium". reflexivity.
  - refine (run_bandit_reported_fields (Ext := bandit_text_lines) sample_code
              "snippet.py" report_text_lines
              [("results", PyList (map PyDict text_line_records))]
              text_line_records eq_refl eq_refl eq_refl _).
    constructor; [|constructor; [|constructor]].
    + split; [split; [exists 12; reflexivity|simpl; lia]|].
      intros _. exists "élevé". reflexivity.
    + split; [split; [exists 3; reflexivity|simpl; lia]|].
      intros H. discriminate H.
Defined.

(** The texts that [int()], [str.upper], [str.strip] and
    [str.splitlines] treat in a way of their own: the separators FS to
    US are white space for [strip] and not for [int()]; the no-break
    space and the digits of other scripts are read by [int()]; lines end
    at NEL and at the line and paragraph separators as well. *)
Lemma text_samples :
  Py.int_of_str (Uni := sample_unicode) (Py.bytes [31; 53]%N) = Raise ValueError /\
  Py.strip (Py.bytes [31; 53]%N) = "5" /\
  Py.int_of_str (Uni := sample_unicode) (Py.bytes [194; 160; 53]%N) = Ok 5 /\
  Py.int_of_str (Uni := sample_unicode) "٣" = Ok 3 /\
  Py.int_of_str (Uni := sample_unicode) " -1_000 " = Ok (-1000) /\
  Py.int_of_str (Uni := sample_unicode) "1__0" = Raise ValueError /\
  Py.int_of_str (Uni := sample_unicode) "- 1" = Raise ValueError /\
  Py.upper (Uni := sample_unicode) "élevé" = "ÉLEVÉ" /\
  Py.splitlines ("a" +:+ Py.bytes [226; 128; 168]%N +:+ "b" +:+ Py.bytes [194; 133]%N
                 +:+ "c" +:+ Py.bytes [13; 10]%N +:+ "d" +:+ Py.bytes [28]%N +:+ "e")
  = ["a"; "b"; "c"; "d"; "e"] /\
  Py.strip (Py.bytes [226; 128; 168]%N +:+ " x " +:+ Py.bytes [227; 128; 128]%N) = "x".
Proof. repeat split; vm_compute; reflexivity. Qed.

(** C2 fails on the code. With the interpreter found and the modules
    flake8 and bandit not installed, each analyser is missing, yet no
    launch raises: both adapters return the empty list, the review holds
    the complexity Issues only and no synthetic INSTALL Issue.  And on a
    source that [cc_visit] cannot parse the review raises
    [SyntaxError], whatever the two launches did. *)
Theorem review_without_analyser_modules :
  flake8_run (Externals := modules_missing) sample_code = Ok "" /\
  bandit_run (Externals := modules_missing) sample_code = Ok "" /\
  @run_flake8 modules_missing sample_code "snippet.py" = Ok [] /\
  @run_bandit modules_missing sample_code "snippet.py" = Ok [] /\
  @review_code_string modules_missing sample_code "snippet.py"
  = Ok (map annotate
          [complexity_issue "snippet.py" (mkBlock "complex_fn" 11 8);
           complexity_issue "snippet.py" (mkBlock "three_paths" 3 40)]) /\
  (forall issues i,
      @review_code_string modules_missing sample_code "snippet.py" = Ok issues ->
      In i issues -> tool i = "complexity" /\ rule i <> PyStr "INSTALL") /\
  @review_code_string modules_missing unparsable_code "snippet.py" = Raise SyntaxError /\
  @review_code_string analysers_missing unparsable_code "snippet.py" = Raise SyntaxError /\
  ~ returns (@review_code_string modules_missing unparsable_code "snippet.py").
Proof.
  do 5 (split; [reflexivity|]). split; [|split; [reflexivity|split; [reflexivity|]]].
  - intros issues i H Hi. vm_compute in H. injection H as <-.
    destruct Hi as [<-|[<-|[]]]; (split; [reflexivity|discriminate]).
  - intros [issues H]. vm_compute in H. discriminate.
Qed.

(** C3, as stated, fails: a flake8 record at row 0 gives an Issue whose
    line is 0. *)
Lemma review_issue_with_line_zero :
  exists issues i,
    @review_code_string flake8_row_zero sample_code "snippet.py" = Ok issues /\
    In i issues /\ line i = 0 /\ ~ (1 <= line i).
Proof.
  eexists. eexists. split; [vm_compute; reflexivity|].
  split; [left; reflexivity|]. split; [reflexivity|]. simpl. lia.
Qed.

Lemma sample_run_positive_lines :
  positive_line_reports (Ext := sample_run) sample_code.
Proof.
  split; [|split].
  - intros stdout ln row col code_id text n Hrun Hin Hsplit Hint.
    injection Hrun as <-. vm_compute in Hin. destruct Hin as [<-|[]].
    vm_compute in Hsplit. injection Hsplit as <- _ _ _.
    vm_compute in Hint. injection Hint as <-. lia.
  - intros stdout data results res v n Hrun Hdata Hres Hin Hv Hn.
    injection Hrun as <-. vm_compute in Hdata. injection Hdata as <-.
    vm_compute in Hres. injection Hres as <-.
    destruct Hin as [<-|[<-|[]]]; vm_compute in Hv; injection Hv as <-;
      vm_compute in Hn; injection Hn as <-; lia.
  - intros blocks b Hcc Hin. vm_compute in Hcc. injection Hcc as <-.
    destruct Hin as [<-|[<-|[<-|[<-|[]]]]]; simpl; lia.
Defined.

Lemma review_issue_line_and_tool_witness :
  exists issues,
    @review_code_string sample_run sample_code "snippet.py" = Ok issues /\
    map (fun i => (tool i, line i)) issues
    = [("flake8", 2); ("bandit", 5); ("bandit", 1); ("complexity", 8);
       ("complexity", 40)] /\
    Forall (fun i => 1 <= line i /\
                     (tool i = "flake8" \/ tool i = "bandit" \/ tool i = "complexity") /\
                     line_reported (Ext := sample_run) sample_code i)
           issues /\
    reports_covered (Ext := sample_run) sample_code issues.
Proof.
  eexists. split; [vm_compute; reflexivity|].
  destruct (review_issue_line_and_tool (Ext := sample_run) sample_code "snippet.py" _
              eq_refl) as (Ht & Hr & Hc & Hl).
  split; [reflexivity|]. split; [|exact Hc].
  apply List.Forall_forall. intros i Hi.
  split; [exact (Hl sample_run_positive_lines i Hi)|].
  split; [exact (Ht i Hi)|exact (Hr i Hi)].
Defined.

Lemma filter_issues_empty_map_noop_witness :
  @filter_issues_to_changed_lines sample_run
    [style_issue_line_2; security_issue_line_5] diff_removes_only
  = Ok [style_issue_line_2; security_issue_line_5] /\
  @filter_issues_to_changed_lines sample_run
    [style_issue_line_2; security_issue_line_5] ""
  = Ok [style_issue_line_2; security_issue_line_5].
Proof.
  split.
  - apply (filter_issues_empty_map_noop (Ext := sample_run)).
    apply (changed_lines_empty_of_no_additions (Ext := sample_run) _ [snippet_removes]).
    + reflexivity.
    + constructor; [right; repeat constructor|constructor].
  - apply (filter_issues_empty_map_noop (Ext := sample_run)).
    reflexivity.
Defined.

Lemma added_lines_snippet : 2 ∈ added_lines snippet_adds_2.
Proof. unfold added_lines, snippet_adds_2. simpl. set_solver. Qed.

Lemma added_lines_pkg_util : added_lines pkg_util = {[ 2 ]}.
Proof. unfold added_lines, pkg_util. simpl. set_solver. Qed.

Lemma added_lines_lib_util : added_lines lib_util = {[ 5 ]}.
Proof. unfold added_lines, lib_util. simpl. set_solver. Qed.

(** C6, as stated, fails: the Issue on line 2 of [snippet.py] is on a
    line that the entry of target [b/snippet.py] adds, and it is dropped,
    because a later file of the diff, [b/vendor/snippet.py], adds lines
    under the same basename.  An entry that unidiff marks as a removed
    file is skipped by the loop as well, whatever lines it holds. *)
Lemma snippet_issue_dropped_by_later_file :
  PatchSet (Externals := vendored_run) diff_snippet_and_vendor
  = Ok [snippet_adds_2; vendor_snippet] /\
  target_file snippet_adds_2 = "b/snippet.py" /\
  file style_issue_line_2 = "snippet.py" /\
  line style_issue_line_2 ∈ added_lines snippet_adds_2 /\
  @filter_issues_to_changed_lines vendored_run
    [style_issue_line_2; security_issue_line_5] diff_snippet_and_vendor = Ok [] /\
  ~ (exists kept,
        @filter_issues_to_changed_lines vendored_run
          [style_issue_line_2; security_issue_line_5] diff_snippet_and_vendor = Ok kept /\
        In style_issue_line_2 kept) /\
  on_changed_line
    (changed_of_patch
       [mkPatchedFile "b/snippet.py" true [[context_line 1; added_line 2]]; pkg_util])
    style_issue_line_2 = false.
Proof.
  assert (Hf : @filter_issues_to_changed_lines vendored_run
                 [style_issue_line_2; security_issue_line_5] diff_snippet_and_vendor
               = Ok []).
  { vm_compute. reflexivity. }
  split; [reflexivity|]. split; [reflexivity|]. split; [reflexivity|].
  split; [exact added_lines_snippet|]. split; [exact Hf|]. split.
  - intros (kept & Hk & Hin). rewrite Hf in Hk. injection Hk as <-. destruct Hin.
  - vm_compute. reflexivity.
Qed.

Lemma normalize_path_matches_snippet_witness :
  _normalize_path "b/snippet.py" = "snippet.py" /\
  _normalize_path "a/src/app.py" = "app.py" /\
  _normalize_path "snippet.py" = "snippet.py" /\
  exists kept,
    @filter_issues_to_changed_lines sample_run
      [style_issue_line_2; security_issue_line_5] diff_adds_line_2 = Ok kept /\
    In style_issue_line_2 kept.
Proof.
  destruct (normalize_path_matches_snippet (Ext := sample_run))
    as (Ha & Hb & _ & Hdir & Hplain & Hkeep).
  split; [exact (eq_trans (Hb "snippet.py") (Hplain "snippet.py" eq_refl))|].
  split; [exact (eq_trans (Ha "src/app.py") (Hdir "src" "app.py" eq_refl))|].
  split; [reflexivity|].
  apply (Hkeep diff_adds_line_2 [] snippet_adds_2 []).
  - reflexivity.
  - reflexivity.
  - reflexivity.
  - intros q [].
  - reflexivity.
  - exact added_lines_snippet.
  - left. reflexivity.
Defined.

Lemma run_complexity_reports_at_threshold_witness :
  exists reported,
    @run_complexity sample_run sample_code "snippet.py" 3
    = Ok (map (complexity_issue "snippet.py") reported) /\
    reported = [mkBlock "complex_fn" 11 8; mkBlock "three_paths" 3 40] /\
    ~ In (mkBlock "two_paths" 2 50) reported.
Proof.
  destruct (run_complexity_reports_at_threshold (Ext := sample_run) sample_code
              "snippet.py" 3 sample_blocks eq_refl)
    as (reported & Hrun & Hrep & Hiff & _).
  exists reported. split; [exact Hrun|]. split; [exact Hrep|].
  intros Hin. apply Hiff in Hin as [_ Hle]. simpl in Hle. lia.
Defined.

Lemma changed_lines_later_file_overwrites_witness :
  exists changed,
    @_changed_lines_from_diff sample_run diff_two_utils = Ok changed /\
    changed !! "util.py" = Some (added_lines lib_util) /\
    exists kept,
      @filter_issues_to_changed_lines sample_run [util_issue 2; util_issue 5]
        diff_two_utils = Ok kept /\
      ~ In (util_issue 2) kept.
Proof.
  destruct (changed_lines_later_file_overwrites (Ext := sample_run) diff_two_utils
              [] [] [] pkg_util lib_util) as (changed & Hch & Hlook & Hdrop).
  - reflexivity.
  - split; [reflexivity|]. rewrite added_lines_pkg_util. set_solver.
  - split; [reflexivity|]. rewrite added_lines_lib_util. set_solver.
  - reflexivity.
  - intros q [].
  - exists changed. split; [exact Hch|]. split; [exact Hlook|].
    apply (Hdrop [util_issue 2; util_issue 5] (util_issue 2)).
    + reflexivity.
    + rewrite added_lines_pkg_util. set_solver.
    + rewrite added_lines_lib_util. set_solver.
Defined.

Lemma review_issues_have_suggestion_witness :
  exists issues,
    @review_code_string analysers_missing sample_code "snippet.py" = Ok issues /\
    length issues = 4%nat /\
    Forall (fun i => suggestion i <> None) issues.
Proof.
  eexists. split; [vm_compute; reflexivity|]. split; [reflexivity|].
  apply List.Forall_forall. intros i Hi.
  apply (review_issues_have_suggestion (Ext := analysers_missing) sample_code
           "snippet.py" _ eq_refl i Hi).
Defined.

(* ===================================================================== *)
(** ** More on the style adapter *)
(* ===================================================================== *)

Lemma split_from_length (sep : ascii) (s : string) :
  forall maxsplit cur,
    length (Py.split_from sep maxsplit cur s) = S (Nat.min maxsplit (count_char sep s)).
Proof.
  induction s as [|c s IH]; intros maxsplit cur.
  - simpl. now rewrite Nat.min_0_r.
  - destruct maxsplit as [|m]; [reflexivity|].
    change (Py.split_from sep (S m) cur (String c s))
      with (if Ascii.eqb c sep then cur :: Py.split_from sep m "" s
            else Py.split_from sep (S m) (Py.snoc cur c) s).
    change (count_char sep (String c s))
      with (if Ascii.eqb c sep then S (count_char sep s) else count_char sep s).
    destruct (Ascii.eqb c sep).
    + change (length (cur :: Py.split_from sep m "" s))
        with (S (length (Py.split_from sep m "" s))).
      rewrite IH. reflexivity.
    + apply IH.
Qed.

Lemma split_from_field (sep : ascii) (a rest : string) :
  count_char sep a = O ->
  forall m cur,
    Py.split_from sep (S m) cur (a +:+ String sep rest)
    = (cur +:+ a) :: Py.split_from sep m "" rest.
Proof.
  induction a as [|c a IH]; intros Ha m cur.
  - change (Py.split_from sep (S m) cur ("" +:+ String sep rest))
      with (if Ascii.eqb sep sep then cur :: Py.split_from sep m "" rest
            else Py.split_from sep (S m) (Py.snoc cur sep) rest).
    rewrite Ascii.eqb_refl, append_empty_r. reflexivity.
  - change (count_char sep (String c a))
      with (if Ascii.eqb c sep then S (count_char sep a) else count_char sep a) in Ha.
    rewrite append_cons.
    change (Py.split_from sep (S m) cur (String c (a +:+ String sep rest)))
      with (if Ascii.eqb c sep then cur :: Py.split_from sep m "" (a +:+ String sep rest)
            else Py.split_from sep (S m) (Py.snoc cur c) (a +:+ String sep rest)).
    destruct (Ascii.eqb c sep); [discriminate|].
    rewrite IH by exact Ha. now rewrite append_snoc.
Qed.

Lemma split_from_rest (sep : ascii) (cur s : string) :
  Py.split_from sep 0 cur s = [cur +:+ s].
Proof. destruct s; simpl; [now rewrite append_empty_r|reflexivity]. Qed.

(** Three pipe-free fields followed by any text split into four parts. *)
Lemma split_four (a b c text : string) :
  count_char "|" a = O -> count_char "|" b = O -> count_char "|" c = O ->
  Py.split "|" 3 (a +:+ "|" +:+ b +:+ "|" +:+ c +:+ "|" +:+ text) = [a; b; c; text].
Proof.
  intros Ha Hb Hc. unfold Py.split.
  change ("|" +:+ b +:+ "|" +:+ c +:+ "|" +:+ text)
    with (String "|" (b +:+ String "|" (c +:+ String "|" text))).
  rewrite (split_from_field _ _ _ Ha), (split_from_field _ _ _ Hb),
    (split_from_field _ _ _ Hc), split_from_rest.
  reflexivity.
Qed.

Lemma strip_c_no_space (s : string) : no_space s = true -> Py.strip_c s = s.
Proof.
  intros Hs. unfold Py.strip_c.
  assert (Hl : Py.lstrip_c s = s).
  { destruct s as [|c r]; [reflexivity|].
    simpl in Hs. apply andb_prop in Hs as [Hc _]. apply negb_true_iff in Hc.
    simpl. now rewrite Hc. }
  rewrite Hl. clear Hl. induction s as [|c r IH]; [reflexivity|].
  simpl in Hs. apply andb_prop in Hs as [Hc Hr]. apply negb_true_iff in Hc.
  simpl. rewrite (IH Hr), Hc. now destruct r.
Qed.

Ltac each_digit d :=
  destruct d as [|d|d|d|d|d|d|d|d|d|d].

Lemma digits_of_uint (d : Decimal.uint) :
  forall acc after_digit,
    Py.digits_from acc after_digit (NilEmpty.string_of_uint d)
    = match d with
      | Decimal.Nil => if after_digit then Some acc else None
      | _ => Some (uint_value acc d)
      end.
Proof.
  induction d as [|d IH|d IH|d IH|d IH|d IH|d IH|d IH|d IH|d IH|d IH];
    intros acc after_digit; [reflexivity|..];
    simpl NilEmpty.string_of_uint;
    match goal with
    | |- Py.digits_from ?a ?b (String ?c ?r) = _ =>
        change (Py.digits_from a b (String c r))
          with (Py.digits_from (10 * a + Py.digit_value c) true r)
    end;
    rewrite IH; each_digit d; simpl uint_value; f_equal;
    unfold Py.digit_value; simpl; try reflexivity; f_equal; lia.
Qed.

Lemma uint_value_acc (d : Decimal.uint) :
  forall acc : positive, uint_value (Z.pos acc) d = Z.pos (Pos.of_uint_acc d acc).
Proof.
  induction d as [|d IH|d IH|d IH|d IH|d IH|d IH|d IH|d IH|d IH|d IH];
    intros acc; [reflexivity|..]; simpl; rewrite <- IH; f_equal; lia.
Qed.

Lemma uint_value_of_uint (d : Decimal.uint) :
  uint_value 0 d = Z.of_N (Pos.of_uint d).
Proof.
  induction d as [|d IH|d IH|d IH|d IH|d IH|d IH|d IH|d IH|d IH|d IH];
    [reflexivity|exact IH|..]; simpl; now rewrite <- uint_value_acc.
Qed.

Lemma no_space_uint (d : Decimal.uint) : no_space (NilEmpty.string_of_uint d) = true.
Proof.
  induction d as [|d IH|d IH|d IH|d IH|d IH|d IH|d IH|d IH|d IH|d IH];
    [reflexivity|..]; simpl NilEmpty.string_of_uint;
    match goal with
    | |- no_space (String ?c ?r) = true =>
        change (no_space (String c r)) with (negb (Py.isspace_c c) && no_space r)
    end; rewrite IH; reflexivity.
Qed.

Lemma no_pipe_uint (d : Decimal.uint) :
  count_char "|" (NilEmpty.string_of_uint d) = O.
Proof.
  induction d as [|d IH|d IH|d IH|d IH|d IH|d IH|d IH|d IH|d IH|d IH];
    [reflexivity|..]; simpl NilEmpty.string_of_uint;
    match goal with
    | |- count_char ?p (String ?c ?r) = O =>
        change (count_char p (String c r))
          with (if Ascii.eqb c p then S (count_char p r) else count_char p r)
    end; rewrite IH; reflexivity.
Qed.

Lemma str_of_int_pos (p : positive) :
  Py.str_of_int (Z.pos p) = NilEmpty.string_of_uint (Pos.to_uint p).
Proof.
  unfold Py.str_of_int, NilZero.string_of_int, NilZero.string_of_uint. simpl.
  pose proof (DecimalPos.Unsigned.to_uint_nonnil p).
  now destruct (Pos.to_uint p).
Qed.

Lemma str_of_int_neg (p : positive) :
  Py.str_of_int (Z.neg p) = String "-" (NilEmpty.string_of_uint (Pos.to_uint p)).
Proof.
  unfold Py.str_of_int, NilZero.string_of_int, NilZero.string_of_uint. simpl.
  pose proof (DecimalPos.Unsigned.to_uint_nonnil p).
  now destruct (Pos.to_uint p).
Qed.

Lemma ascii_only_uint (d : Decimal.uint) :
  ascii_only (NilEmpty.string_of_uint d) = true.
Proof.
  induction d as [|d IH|d IH|d IH|d IH|d IH|d IH|d IH|d IH|d IH|d IH];
    [reflexivity|..]; simpl NilEmpty.string_of_uint;
    match goal with
    | |- ascii_only (String ?c ?r) = true =>
        change (ascii_only (String c r)) with ((Py.code c <? 128)%N && ascii_only r)
    end; rewrite IH; reflexivity.
Qed.

(** In a text of ASCII characters every byte is a character. *)
Lemma chars_from_ascii (b : ascii) (s : string) :
  ascii_only s = true ->
  Py.chars_from (String b EmptyString) s = String b EmptyString :: Py.characters s.
Proof.
  destruct s as [|c r]; [reflexivity|].
  intros Hs. apply andb_prop in Hs as [Hc _]. apply N.ltb_lt in Hc.
  unfold Py.characters.
  change (Py.chars_from (String b EmptyString) (String c r))
    with (if Py.is_continuation c
          then Py.chars_from (Py.snoc (String b EmptyString) c) r
          else String b EmptyString :: Py.chars_from (String c EmptyString) r).
  change (Py.chars_from EmptyString (String c r))
    with (if Py.is_continuation c
          then Py.chars_from (Py.snoc EmptyString c) r
          else Py.chars_from (String c EmptyString) r).
  assert (Hk : Py.is_continuation c = false).
  { unfold Py.is_continuation. apply andb_false_iff. left. apply N.leb_gt. lia. }
  now rewrite Hk.
Qed.

Section IntOfStr.

Context `{Uni : Unicode}.

(** [int()] leaves a text of ASCII characters as it is before it parses. *)
Lemma int_transform_ascii (s : string) :
  ascii_only s = true -> Py.int_transform (Py.characters s) = Some s.
Proof.
  induction s as [|b r IH]; [reflexivity|].
  intros Hs. pose proof Hs as Hs'. apply andb_prop in Hs' as [Hb Hr].
  assert (Hk : Py.is_continuation b = false).
  { unfold Py.is_continuation. apply andb_false_iff. left. apply N.leb_gt.
    apply N.ltb_lt in Hb. lia. }
  unfold Py.characters.
  change (Py.chars_from EmptyString (String b r))
    with (if Py.is_continuation b
          then Py.chars_from (Py.snoc EmptyString b) r
          else Py.chars_from (String b EmptyString) r).
  rewrite Hk, (chars_from_ascii b r Hr).
  change (Py.int_transform (String b EmptyString :: Py.characters r))
    with (match Py.int_char (String b EmptyString), Py.int_transform (Py.characters r) with
          | Some a, Some t => Some (a +:+ t)
          | _, _ => None
          end).
  rewrite (IH Hr). unfold Py.int_char. rewrite Hb. reflexivity.
Qed.

Lemma int_of_str_ascii (s : string) :
  ascii_only s = true -> no_space s = true ->
  Py.int_of_str s
  = match Py.signed_digits s with
    | Some n => Ok n
    | None => Raise ValueError
    end.
Proof.
  intros Ha Hs. unfold Py.int_of_str, Py.int_of_str_limited.
  rewrite (int_transform_ascii s Ha), (strip_c_no_space s Hs).
  unfold Py.exceeds_digit_limit, Py.int_max_str_digits.
  rewrite andb_false_r. reflexivity.
Qed.

Lemma int_of_str_digits (p : positive) :
  Py.int_of_str (NilEmpty.string_of_uint (Pos.to_uint p)) = Ok (Z.pos p).
Proof.
  rewrite int_of_str_ascii by (apply ascii_only_uint || apply no_space_uint).
  pose proof (DecimalPos.Unsigned.to_uint_nonnil p) as Hnil.
  pose proof (DecimalPos.Unsigned.of_to p) as Hof.
  pose proof (digits_of_uint (Pos.to_uint p) 0 false) as Hd.
  rewrite uint_value_of_uint, Hof in Hd.
  destruct (Pos.to_uint p) as [|d|d|d|d|d|d|d|d|d|d]; [contradiction|..];
    simpl NilEmpty.string_of_uint in *; unfold Py.signed_digits; cbv iota beta;
    rewrite Hd; reflexivity.
Qed.

(** [int(str(n)) == n] *)
Lemma int_of_str_of_int (n : Z) : Py.int_of_str (Py.str_of_int n) = Ok n.
Proof.
  destruct n as [|p|p].
  - reflexivity.
  - rewrite str_of_int_pos. apply int_of_str_digits.
  - rewrite str_of_int_neg. rewrite int_of_str_ascii.
    + unfold Py.signed_digits. cbv iota beta.
      pose proof (DecimalPos.Unsigned.to_uint_nonnil p) as Hnil.
      pose proof (digits_of_uint (Pos.to_uint p) 0 false) as Hd.
      rewrite uint_value_of_uint, DecimalPos.Unsigned.of_to in Hd.
      destruct (Pos.to_uint p) as [|d|d|d|d|d|d|d|d|d|d]; [contradiction|..];
        rewrite Hd; reflexivity.
    + change ((Py.code "-" <? 128)%N
              && ascii_only (NilEmpty.string_of_uint (Pos.to_uint p)) = true).
      now rewrite ascii_only_uint.
    + change (negb (Py.isspace_c "-")
              && no_space (NilEmpty.string_of_uint (Pos.to_uint p)) = true).
      now rewrite no_space_uint.
Qed.

End IntOfStr.

Lemma str_of_int_no_pipe (n : Z) : count_char "|" (Py.str_of_int n) = O.
Proof.
  destruct n as [|p|p].
  - reflexivity.
  - rewrite str_of_int_pos. apply no_pipe_uint.
  - rewrite str_of_int_neg.
    change (count_char "|" (String "-" (NilEmpty.string_of_uint (Pos.to_uint p))))
      with (count_char "|" (NilEmpty.string_of_uint (Pos.to_uint p))).
    apply no_pipe_uint.
Qed.

Definition flake8_finding (hint : string) (r : Z * Z * string * string) : Issue :=
  let '(row, col, code_id, text) := r in
  mkIssue hint row "LOW" "flake8" (PyStr code_id) (PyStr text) None.

Definition flake8_print (r : Z * Z * string * string) : string :=
  let '(row, col, code_id, text) := r in flake8_format row col code_id text.

Section StyleAdapter.

Context `{Ext : Externals}.

Lemma flake8_line_of_format (hint : string) (row col : Z) (code_id text : string) :
  count_char "|" code_id = O ->
  flake8_line hint (flake8_format row col code_id text)
  = Ok (mkIssue hint row "LOW" "flake8" (PyStr code_id) (PyStr text) None).
Proof.
  intros Hc. unfold flake8_line, flake8_format.
  rewrite split_four by (try apply str_of_int_no_pipe; exact Hc).
  rewrite int_of_str_of_int. reflexivity.
Qed.

Lemma flake8_issues_app (hint : string) (l1 l2 : list string) :
  flake8_issues hint (l1 ++ l2) = flake8_issues hint l1 ++ flake8_issues hint l2.
Proof. unfold flake8_issues. apply flat_map_app. Qed.

Lemma flake8_issues_cons (hint ln : string) (l : list string) :
  flake8_issues hint (ln :: l) = flake8_issues hint [ln] ++ flake8_issues hint l.
Proof. apply (flake8_issues_app hint [ln] l). Qed.

Lemma flake8_issue_shape (hint : string) (lines : list string) (i : Issue) :
  In i (flake8_issues hint lines) ->
  file i = hint /\ severity i = "LOW" /\ tool i = "flake8" /\ suggestion i = None /\
  exists code_id text, rule i = PyStr code_id /\ message i = PyStr text.
Proof.
  unfold flake8_issues. rewrite in_flat_map. intros (ln & _ & Hi).
  unfold flake8_line in Hi.
  destruct (Py.split "|" 3 ln) as [|row [|col [|code_id [|text [|x rest]]]]];
    try (simpl in Hi; contradiction).
  destruct (Py.int_of_str row) as [n|e]; simpl in Hi; [|contradiction].
  destruct Hi as [<-|[]]. simpl. repeat split. eauto.
Qed.

Lemma flake8_issues_length (hint : string) (lines : list string) :
  (length (flake8_issues hint lines) <= length lines)%nat.
Proof.
  induction lines as [|ln lines IH]; [reflexivity|].
  rewrite flake8_issues_cons, length_app.
  change (length (ln :: lines)) with (S (length lines)).
  assert (H1 : (length (flake8_issues hint [ln]) <= 1)%nat).
  { unfold flake8_issues. cbn [flat_map].
    destruct (flake8_line hint ln); simpl; lia. }
  exact (Nat.add_le_mono _ _ _ _ H1 IH).
Qed.

(** X1. Whatever flake8 prints, [run_flake8] returns: at most one Issue
    per line of output, each on the hinted file with severity LOW, tool
    flake8, a textual rule and message, and no suggestion yet. *)
Theorem run_flake8_tolerates_any_output (code hint stdout : string) :
  flake8_run code = Ok stdout ->
  exists issues,
    run_flake8 code hint = Ok issues /\
    (length issues <= length (Py.splitlines (Py.strip stdout)))%nat /\
    Forall (fun i =>
              file i = hint /\ severity i = "LOW" /\ tool i = "flake8" /\
              suggestion i = None /\
              exists code_id text, rule i = PyStr code_id /\ message i = PyStr text)
           issues.
Proof.
  intros Hrun. eexists. split; [apply run_flake8_completed; exact Hrun|].
  split; [apply flake8_issues_length|].
  apply List.Forall_forall. intros i Hi. eapply flake8_issue_shape; eauto.
Qed.

(** X2. The loop of [run_flake8] inverts the output format it asks for:
    from the lines flake8 prints for a list of findings (row, column,
    code without a pipe, any text) it builds exactly those findings, in
    order, the pipes of the text included. *)
Theorem flake8_loop_reads_back_findings (hint : string)
    (findings : list (Z * Z * string * string)) :
  Forall (fun r => count_char "|" (snd (fst r)) = O) findings ->
  flake8_loop hint (map flake8_print findings) []
  = Ok (map (flake8_finding hint) findings).
Proof.
  intros Hall. rewrite flake8_loop_total. simpl. f_equal.
  induction Hall as [|[[[row col] code_id] text] findings Hc _ IH]; [reflexivity|].
  simpl map. rewrite flake8_issues_cons, IH. simpl in Hc.
  unfold flake8_issues at 1. simpl flat_map.
  unfold flake8_print. now rewrite (flake8_line_of_format hint row col code_id text Hc).
Qed.

Lemma flake8_line_few_pipes (hint ln : string) :
  (count_char "|" ln < 3)%nat -> flake8_line hint ln = Raise ValueError.
Proof.
  intros Hlt. unfold flake8_line.
  pose proof (split_from_length "|" ln 3 "") as Hlen. fold (Py.split "|" 3 ln) in Hlen.
  destruct (Py.split "|" 3 ln) as [|row [|col [|code_id [|text [|x rest]]]]];
    try reflexivity.
  change (length [row; col; code_id; text]) with 4%nat in Hlen. lia.
Qed.

(** X3. A line of flake8's output with fewer than three pipes, or whose
    first field [int()] rejects, is dropped, and the Issues of the lines
    around it are what they would be without it. *)
Theorem flake8_loop_skips_malformed_line (hint ln : string) (before after : list string) :
  (count_char "|" ln < 3)%nat \/
  (exists row rest e, Py.split "|" 3 ln = row :: rest /\ Py.int_of_str row = Raise e) ->
  flake8_loop hint (before ++ ln :: after) [] = flake8_loop hint (before ++ after) [].
Proof.
  intros Hbad. rewrite !flake8_loop_total. f_equal. simpl.
  rewrite !flake8_issues_app, (flake8_issues_cons hint ln after).
  assert (Hnone : flake8_issues hint [ln] = []); [|now rewrite Hnone].
  unfold flake8_issues. simpl.
  destruct Hbad as [Hlt|(row & rest & e & Hs & He)].
  - now rewrite flake8_line_few_pipes.
  - unfold flake8_line. rewrite Hs.
    destruct rest as [|col [|code_id [|text [|x rest]]]]; try reflexivity.
    now rewrite He.
Qed.

End StyleAdapter.

(* ===================================================================== *)
(** ** More on the security adapter and the aggregator *)
(* ===================================================================== *)

Section SecurityAdapter.

Context `{Ext : Externals}.

(** X4. Output of bandit that is not JSON, and a JSON object without a
    [results] key, both give the empty list of Issues. *)
Theorem run_bandit_without_results (code hint stdout : string) :
  bandit_run code = Ok stdout ->
  json_loads (if String.eqb stdout "" then "{}" else stdout) = Raise JSONDecodeError \/
  (exists top,
      json_loads (if String.eqb stdout "" then "{}" else stdout) = Ok (PyDict top) /\
      Py.assoc "results" top = None) ->
  run_bandit code hint = Ok [].
Proof.
  intros Hrun [Hj|(top & Hj & Hres)]; unfold run_bandit, bandit_body; rewrite Hrun, Hj.
  - reflexivity.
  - rewrite get_dict, Hres. reflexivity.
Qed.

(** X5. When bandit's report parses, [run_bandit] returns a list exactly
    when every reported result converts; the list then has one Issue per
    result, in order. *)
Theorem run_bandit_one_issue_per_result (code hint stdout : string) (data : Py.value)
    (results : list Py.value) (issues : list Issue) :
  bandit_run code = Ok stdout ->
  json_loads (if String.eqb stdout "" then "{}" else stdout) = Ok data ->
  (r <- Py.get data "results" (PyList []) ;; Py.iter r) = Ok results ->
  run_bandit code hint = Ok issues <->
  Forall2 (fun res i => bandit_result hint res = Ok i) results issues.
Proof.
  intros Hrun Hj Hres. unfold run_bandit, bandit_body. rewrite Hrun, Hj, Hres. split.
  - destruct (bandit_loop hint results []) as [out oe] eqn:Hloop.
    destruct (bandit_loop_inv _ _ _ _ _ Hloop) as (made & -> & Hoe).
    destruct oe as [e|].
    + destruct Hoe as (good & bad & rest & _ & _ & Hbad).
      rewrite (bandit_result_not_json_error _ _ _ Hbad). discriminate.
    + intros H. injection H as <-. exact Hoe.
  - intros Hall. now rewrite (bandit_loop_all_ok _ _ _ Hall).
Qed.

(** X6. One result that does not convert loses the whole report: the
    exception of the first such result leaves [run_bandit], and the
    Issues of the results before it are not returned. *)
Theorem run_bandit_raises_at_first_bad_result (code hint stdout : string)
    (data : Py.value) (good rest : list Py.value) (bad : Py.value)
    (made : list Issue) (e : exn) :
  bandit_run code = Ok stdout ->
  json_loads (if String.eqb stdout "" then "{}" else stdout) = Ok data ->
  (r <- Py.get data "results" (PyList []) ;; Py.iter r) = Ok (good ++ bad :: rest) ->
  Forall2 (fun res i => bandit_result hint res = Ok i) good made ->
  bandit_result hint bad = Raise e ->
  run_bandit code hint = Raise e /\
  (e = AttributeError \/ e = TypeError \/ e = ValueError \/ e = OverflowError).
Proof.
  intros Hrun Hj Hres Hgood Hbad. split; [|eapply bandit_result_raises; eauto].
  unfold run_bandit, bandit_body. rewrite Hrun, Hj, Hres.
  assert (Hloop : forall issues,
             bandit_loop hint (good ++ bad :: rest) issues = (issues ++ made, Some e)).
  { clear Hres. induction Hgood as [|res i good made Hres _ IH]; intros issues; simpl.
    - now rewrite Hbad, app_nil_r.
    - rewrite Hres, IH, <- app_assoc. reflexivity. }
  rewrite Hloop, (bandit_result_not_json_error _ _ _ Hbad). reflexivity.
Qed.

(** X25. A report whose top level is not a JSON object makes
    [run_bandit] raise [AttributeError]; one whose [results] is [null], a
    boolean or a number makes it raise [TypeError]. *)
Theorem run_bandit_rejects_other_shapes (code hint stdout : string) (data : Py.value) :
  bandit_run code = Ok stdout ->
  json_loads (if String.eqb stdout "" then "{}" else stdout) = Ok data ->
  ((forall items, data <> PyDict items) -> run_bandit code hint = Raise AttributeError) /\
  (forall top v,
      data = PyDict top ->
      Py.assoc "results" top = Some v ->
      v = PyNone \/ (exists b, v = PyBool b) \/ (exists n, v = PyInt n) \/
      (exists f, v = PyFloat f) ->
      run_bandit code hint = Raise TypeError).
Proof.
  intros Hrun Hj. unfold run_bandit, bandit_body. rewrite Hrun, Hj. split.
  - intros Hnot. destruct data; try reflexivity. now destruct (Hnot items).
  - intros top v -> Hres Hv. rewrite get_dict, Hres.
    destruct Hv as [-> | [[b ->] | [[n ->] | [f ->]]]]; reflexivity.
Qed.

Lemma run_bandit_file (code hint : string) (bd : list Issue) (i : Issue) :
  run_bandit code hint = Ok bd -> In i bd -> file i = hint.
Proof.
  unfold run_bandit. destruct (bandit_run code) as [stdout|e].
  - destruct (bandit_body hint stdout) as [out oe] eqn:Hbody. intros H Hi.
    assert (Hout : bd = out).
    { destruct oe as [e|]; [destruct (isinstance e JSONDecodeError)|]; congruence. }
    subst out. clear H. unfold bandit_body in Hbody.
    destruct (json_loads _) as [data|e].
    2:{ injection Hbody as <- _. destruct Hi. }
    destruct (r <- Py.get data "results" (PyList []);; Py.iter r) as [results|e].
    2:{ injection Hbody as <- _. destruct Hi. }
    destruct (bandit_loop_origin _ _ _ _ _ Hbody i Hi) as [[]|(res & _ & Hok)].
    unfold bandit_result in Hok.
    destruct (Py.get res "line_number" (PyInt 1)); simpl in Hok; [|discriminate].
    destruct (Py.int _); simpl in Hok; [|discriminate].
    destruct (Py.get res "issue_severity" PyNone); simpl in Hok; [|discriminate].
    destruct (Py.upper_method _); simpl in Hok; [|discriminate].
    destruct (Py.get res "test_id" _); simpl in Hok; [|discriminate].
    destruct (Py.get res "issue_text" _); simpl in Hok; [|discriminate].
    injection Hok as <-. reflexivity.
  - destruct (isinstance e FileNotFoundError); [|discriminate].
    intros H Hi. injection H as <-. destruct Hi as [<-|[]]. reflexivity.
Qed.

Lemma run_flake8_file (code hint : string) (f8 : list Issue) (i : Issue) :
  run_flake8 code hint = Ok f8 -> In i f8 -> file i = hint.
Proof.
  unfold run_flake8. destruct (flake8_run code) as [stdout|e].
  - rewrite flake8_loop_total. simpl. intros H Hi. injection H as <-.
    eapply flake8_issue_shape; eauto.
  - destruct (isinstance e FileNotFoundError); [|discriminate].
    intros H Hi. injection H as <-. destruct Hi as [<-|[]]. reflexivity.
Qed.

Lemma run_complexity_file (code hint : string) (thr : Z) (cx : list Issue) (i : Issue) :
  run_complexity code hint thr = Ok cx -> In i cx -> file i = hint.
Proof.
  unfold run_complexity. destruct (cc_visit code) as [blocks|e]; simpl; [|discriminate].
  rewrite complexity_fold. simpl. intros H Hi. injection H as <-.
  apply in_map_iff in Hi as (b & <- & _). reflexivity.
Qed.

(** X7. Every Issue returned by [review_code_string] is on the file name
    hint it was given. *)
Theorem review_issues_on_hinted_file (code hint : string) (issues : list Issue) :
  review_code_string code hint = Ok issues ->
  Forall (fun i => file i = hint) issues.
Proof.
  intros H. apply review_inv in H as (f8 & bd & cx & H8 & Hb & Hc & ->).
  apply List.Forall_forall. intros i Hi.
  apply in_map_iff in Hi as (j & <- & Hj). simpl.
  apply in_app_or in Hj as [Hj|Hj]; [|apply in_app_or in Hj as [Hj|Hj]].
  - eapply run_flake8_file; eauto.
  - eapply run_bandit_file; eauto.
  - eapply run_complexity_file; eauto.
Qed.

(** X8. [review_code_string] returns exactly when launching flake8 does
    not raise anything but [FileNotFoundError], [run_bandit] returns and
    [cc_visit] returns; it then has as many Issues as the three adapters
    together. *)
Theorem review_returns_iff (code hint : string) :
  returns (review_code_string code hint) <->
  (forall e, flake8_run code = Raise e -> isinstance e FileNotFoundError = true) /\
  returns (run_bandit code hint) /\
  returns (cc_visit code).
Proof.
  unfold returns. split.
  - intros [issues H]. apply review_inv in H as (f8 & bd & cx & H8 & Hb & Hc & _).
    split; [|split; [eauto|]].
    + intros e He. unfold run_flake8 in H8. rewrite He in H8.
      destruct (isinstance e FileNotFoundError); [reflexivity|discriminate].
    + unfold run_complexity in Hc. destruct (cc_visit code); [eauto|discriminate].
  - intros (Hf & [bd Hb] & [blocks Hcc]). unfold review_code_string.
    assert (H8 : exists f8, run_flake8 code hint = Ok f8).
    { unfold run_flake8. destruct (flake8_run code) as [stdout|e] eqn:Hrun.
      - rewrite flake8_loop_total. eauto.
      - rewrite (Hf e eq_refl). eauto. }
    destruct H8 as [f8 H8]. rewrite H8, Hb. simpl.
    rewrite (run_complexity_spec _ _ _ _ Hcc). simpl. eauto.
Qed.

(** X26. When [subprocess.run] raises [FileNotFoundError] (the
    interpreter [sys.executable] cannot be launched), the adapter returns
    exactly one synthetic Issue at line 1, severity LOW, tagged with the
    tool, with rule INSTALL, and [review_code_string] goes on with the
    remaining tools; when both launches raise it, the review is the two
    synthetic Issues followed by the complexity Issues whenever
    [cc_visit] returns. *)
Theorem review_survives_missing_analysers (code hint : string) :
  (flake8_run code = Raise FileNotFoundError ->
   run_flake8 code hint =
     Ok [mkIssue hint 1 "LOW" "flake8" (PyStr "INSTALL")
           (PyStr "flake8 not found. Did you install requirements?") None]) /\
  (bandit_run code = Raise FileNotFoundError ->
   run_bandit code hint =
     Ok [mkIssue hint 1 "LOW" "bandit" (PyStr "INSTALL")
           (PyStr "bandit not found. Did you install requirements?") None]) /\
  (flake8_run code = Raise FileNotFoundError ->
   review_code_string code hint =
     (bd <- run_bandit code hint ;;
      cx <- run_complexity code hint default_cc_threshold ;;
      Ok (map annotate (flake8_missing hint :: bd ++ cx)))) /\
  (bandit_run code = Raise FileNotFoundError ->
   review_code_string code hint =
     (f8 <- run_flake8 code hint ;;
      cx <- run_complexity code hint default_cc_threshold ;;
      Ok (map annotate (f8 ++ bandit_missing hint :: cx)))) /\
  (flake8_run code = Raise FileNotFoundError ->
   bandit_run code = Raise FileNotFoundError ->
   forall blocks, cc_visit code = Ok blocks ->
     review_code_string code hint =
       Ok (map annotate
             (flake8_missing hint :: bandit_missing hint ::
              map (complexity_issue hint)
                  (List.filter (fun b => default_cc_threshold <=? complexity b)
                     blocks)))).
Proof.
  split; [apply run_flake8_missing|]. split; [apply run_bandit_missing|].
  split; [|split].
  - intros Hf. unfold review_code_string.
    now rewrite (run_flake8_missing _ _ Hf).
  - intros Hb. unfold review_code_string.
    now rewrite (run_bandit_missing _ _ Hb).
  - intros Hf Hb blocks Hcc. unfold review_code_string.
    rewrite (run_flake8_missing _ _ Hf), (run_bandit_missing _ _ Hb).
    now rewrite (run_complexity_spec _ _ _ _ Hcc).
Qed.

End SecurityAdapter.

(* ===================================================================== *)
(** ** More on paths, the changed-line map and the filter *)
(* ===================================================================== *)

Lemma startswith_app (p q : string) :
  Py.startswith p q = true -> exists s, p = q +:+ s.
Proof.
  revert p. induction q as [|a q IH]; intros p H.
  - exists p. reflexivity.
  - destruct p as [|b p]; [discriminate|].
    rewrite startswith_cons in H. apply andb_prop in H as [Hab Hq].
    apply Ascii.eqb_eq in Hab as ->. destruct (IH _ Hq) as [s ->].
    exists s. reflexivity.
Qed.

Lemma no_slash_snoc (cur : string) (c : ascii) :
  no_slash cur = true -> Ascii.eqb c "/" = false -> no_slash (Py.snoc cur c) = true.
Proof.
  intros Hcur Hc. unfold Py.snoc. induction cur as [|a cur IH].
  - change (negb (Ascii.eqb c "/") && true = true). now rewrite Hc.
  - rewrite no_slash_cons in Hcur. apply andb_prop in Hcur as [Ha Hcur].
    rewrite append_cons, no_slash_cons, Ha. exact (IH Hcur).
Qed.

Lemma no_slash_after_last_slash (s : string) :
  forall cur, no_slash cur = true -> no_slash (Py.after_last_slash cur s) = true.
Proof.
  induction s as [|c s IH]; intros cur Hcur; [exact Hcur|].
  change (Py.after_last_slash cur (String c s))
    with (if Ascii.eqb c "/" then Py.after_last_slash "" s
          else Py.after_last_slash (Py.snoc cur c) s).
  destruct (Ascii.eqb c "/") eqn:Hc.
  - now apply IH.
  - apply IH. now apply no_slash_snoc.
Qed.

Lemma no_slash_basename (p : string) : no_slash (Py.basename p) = true.
Proof. now apply no_slash_after_last_slash. Qed.

(** X9. [_normalize_path] is [os.path.basename]: dropping a leading [a/]
    or [b/] first never changes the result. *)
Theorem normalize_path_is_basename (p : string) : _normalize_path p = Py.basename p.
Proof.
  unfold _normalize_path.
  destruct (Py.startswith p "a/") eqn:Ha; [|destruct (Py.startswith p "b/") eqn:Hb].
  - apply startswith_app in Ha as [s ->]. reflexivity.
  - apply startswith_app in Hb as [s ->]. reflexivity.
  - reflexivity.
Qed.

(** X10. A normalised path holds no slash, and normalising it again
    leaves it as it is. *)
Theorem normalize_path_idempotent (p : string) :
  no_slash (_normalize_path p) = true /\
  _normalize_path (_normalize_path p) = _normalize_path p.
Proof.
  assert (H : no_slash (_normalize_path p) = true).
  { rewrite normalize_path_is_basename. apply no_slash_basename. }
  split; [exact H|]. now apply normalize_plain.
Qed.

Section ChangedLines.

Context `{Ext : Externals}.

Lemma added_fold_elem (hunk : Hunk) :
  forall (added : gset Z) (n : Z),
    n ∈ fold_left added_step hunk added <->
    n ∈ added \/
    exists ln, In ln hunk /\ is_added ln = true /\ target_line_no ln = Some n.
Proof.
  induction hunk as [|ln hunk IH]; intros added n; simpl.
  - split; [now left|]. intros [H|(ln & [] & _)]. exact H.
  - rewrite IH. unfold added_step. split.
    + intros [H|(l & Hl & Ha & Ht)].
      * destruct (is_added ln) eqn:Ha; [destruct (target_line_no ln) as [m|] eqn:Ht|];
          try (now left).
        apply elem_of_union in H as [H|H]; [|now left].
        apply elem_of_singleton in H as ->. right. exists ln. auto.
      * right. exists l. auto.
    + intros [H|(l & [<-|Hl] & Ha & Ht)].
      * left. destruct (is_added ln); [destruct (target_line_no ln)|]; try exact H.
        apply elem_of_union. now right.
      * left. rewrite Ha, Ht. apply elem_of_union. left. now apply elem_of_singleton.
      * right. exists l. auto.
Qed.

(** X11. A line number is among the added lines of a patched file exactly
    when some line of some hunk is marked added and has that target line
    number. *)
Theorem added_lines_elem (pf : PatchedFile) (n : Z) :
  n ∈ added_lines pf <->
  exists hunk ln,
    In hunk (hunks pf) /\ In ln hunk /\
    is_added ln = true /\ target_line_no ln = Some n.
Proof.
  unfold added_lines.
  assert (H : forall (hs : list Hunk) (added : gset Z),
             n ∈ fold_left (fun a h => fold_left added_step h a) hs added <->
             n ∈ added \/
             exists hunk ln, In hunk hs /\ In ln hunk /\
                             is_added ln = true /\ target_line_no ln = Some n).
  { induction hs as [|h hs IH]; intros added; simpl.
    - split; [now left|]. intros [H|(h & ln & [] & _)]. exact H.
    - rewrite IH, added_fold_elem. split.
      + intros [[H|(ln & Hl & Ha & Ht)]|(h' & ln & Hh & Hl & Ha & Ht)].
        * now left.
        * right. exists h, ln. auto.
        * right. exists h', ln. auto.
      + intros [H|(h' & ln & [<-|Hh] & Hl & Ha & Ht)].
        * left. now left.
        * left. right. exists ln. auto.
        * right. exists h', ln. auto. }
  rewrite H. split.
  - intros [Hn|Hex]; [set_solver|exact Hex].
  - intros Hex. now right.
Qed.

Lemma changed_fold_entry (ps : list PatchedFile) :
  forall (changed : gmap string (gset Z)) (k : string) (added : gset Z),
    fold_left changed_step ps changed !! k = Some added ->
    changed !! k = Some added \/
    exists pf, In pf ps /\ contributes pf /\ key_of pf = k /\ added = added_lines pf.
Proof.
  induction ps as [|pf ps IH]; intros changed k added H; simpl in H; [now left|].
  destruct (IH _ _ _ H) as [Hstep|(q & Hq & Hc & Hk & Ha)].
  - destruct (contributes_dec pf) as [Hc|Hc].
    + rewrite changed_step_insert in Hstep by exact Hc.
      destruct (decide (key_of pf = k)) as [<-|Hne].
      * rewrite lookup_insert_eq in Hstep. injection Hstep as <-.
        right. exists pf. split; [now left|auto].
      * rewrite lookup_insert_ne in Hstep by exact Hne. now left.
    + rewrite changed_step_skip in Hstep by exact Hc. now left.
  - right. exists q. split; [now right|auto].
Qed.

(** X12. Every entry of the changed-line map is the non-empty added-line
    set of a file of the diff that is not removed, under a key without a
    slash. *)
Theorem changed_lines_entries (diff_text : string) (changed : gmap string (gset Z))
    (k : string) (added : gset Z) :
  _changed_lines_from_diff diff_text = Ok changed ->
  changed !! k = Some added ->
  added <> ∅ /\ no_slash k = true /\
  exists ps pf,
    PatchSet diff_text = Ok ps /\ In pf ps /\ is_removed_file pf = false /\
    _normalize_path (target_file pf) = k /\ added = added_lines pf.
Proof.
  unfold _changed_lines_from_diff.
  destruct (PatchSet diff_text) as [ps|e]; simpl; [|discriminate].
  intros H Hk. injection H as <-.
  apply changed_fold_entry in Hk as [Hk|(pf & Hin & [Hrm Hne] & Hkey & ->)].
  - rewrite lookup_empty in Hk. discriminate.
  - split; [exact Hne|]. split.
    + rewrite <- Hkey. apply normalize_path_idempotent.
    + exists ps, pf. auto.
Qed.

Lemma filter_sublist {A : Type} (f : A -> bool) (l : list A) :
  sublist (List.filter f l) l.
Proof.
  induction l as [|x l IH]; simpl; [constructor|].
  destruct (f x); now constructor.
Qed.

(** X13. [filter_issues_to_changed_lines] only drops Issues: what it
    returns is a subsequence of its input, and unless the map is empty an
    Issue is kept exactly when the basename of its file is a key of the
    map and its line is in that key's set. *)
Theorem filter_issues_keeps_changed_lines (issues kept : list Issue) (diff_text : string)
    (changed : gmap string (gset Z)) :
  _changed_lines_from_diff diff_text = Ok changed ->
  filter_issues_to_changed_lines issues diff_text = Ok kept ->
  sublist kept issues /\
  (changed <> ∅ ->
   forall i, In i kept <->
     In i issues /\
     exists added, changed !! Py.basename (file i) = Some added /\ line i ∈ added).
Proof.
  intros Hc. unfold filter_issues_to_changed_lines. rewrite Hc. simpl.
  destruct (decide (changed = ∅)) as [He|Hne]; intros H; injection H as <-.
  - split; [reflexivity|]. intros Hne. contradiction.
  - split; [apply filter_sublist|]. intros _ i.
    rewrite filter_In. unfold on_changed_line. rewrite normalize_path_is_basename.
    split; intros [Hin Hon]; (split; [exact Hin|]).
    + destruct (changed !! Py.basename (file i)) as [added|]; [|discriminate].
      exists added. split; [reflexivity|]. now apply bool_decide_eq_true in Hon.
    + destruct Hon as (added & -> & Hl). now apply bool_decide_eq_true.
Qed.

(** X14. Filtering a concatenation is filtering the parts: the filter can
    be applied to the Issues of each tool before or after they are put
    together. *)
Theorem filter_issues_app (a b : list Issue) (diff_text : string) :
  filter_issues_to_changed_lines (a ++ b) diff_text
  = (ka <- filter_issues_to_changed_lines a diff_text ;;
     kb <- filter_issues_to_changed_lines b diff_text ;;
     Ok (ka ++ kb)).
Proof.
  unfold filter_issues_to_changed_lines.
  destruct (_changed_lines_from_diff diff_text) as [changed|e]; simpl; [|reflexivity].
  destruct (decide (changed = ∅)); simpl; [reflexivity|].
  now rewrite List.filter_app.
Qed.

(** X15. When the map is not empty and the basename of the hinted file is
    not one of its keys, nothing that [review_code_string] returned
    survives the filter. *)
Theorem filter_drops_review_of_other_file (code hint diff_text : string)
    (issues : list Issue) (changed : gmap string (gset Z)) :
  review_code_string code hint = Ok issues ->
  _changed_lines_from_diff diff_text = Ok changed ->
  changed <> ∅ ->
  changed !! Py.basename hint = None ->
  filter_issues_to_changed_lines issues diff_text = Ok [].
Proof.
  intros Hrev Hc Hne Hkey. unfold filter_issues_to_changed_lines. rewrite Hc. simpl.
  destruct (decide (changed = ∅)); [contradiction|]. f_equal.
  pose proof (review_issues_on_hinted_file _ _ _ Hrev) as Hfile. clear Hrev.
  induction Hfile as [|i issues Hi _ IH]; [reflexivity|]. simpl.
  unfold on_changed_line at 1. rewrite normalize_path_is_basename, Hi, Hkey. exact IH.
Qed.

End ChangedLines.

(* ===================================================================== *)
(** ** More on the complexity adapter and the renderer *)
(* ===================================================================== *)

Section ComplexityAndRenderer.

Context `{Ext : Externals}.

Lemma filter_map_sublist {A B : Type} (h : A -> B) (f g : A -> bool) (l : list A) :
  (forall x, g x = true -> f x = true) ->
  sublist (map h (List.filter g l)) (map h (List.filter f l)).
Proof.
  intros Hgf. induction l as [|x l IH]; simpl; [constructor|].
  destruct (g x) eqn:Hg.
  - rewrite (Hgf x Hg). simpl. now constructor.
  - destruct (f x); simpl; [now constructor|exact IH].
Qed.

(** X16. Raising the threshold of [run_complexity] only removes Issues:
    what is reported at a higher threshold is a subsequence of what is
    reported at a lower one. *)
Theorem run_complexity_threshold_monotone (code hint : string) (low high : Z)
    (blocks : list Block) :
  cc_visit code = Ok blocks ->
  low <= high ->
  exists at_low at_high,
    run_complexity code hint low = Ok at_low /\
    run_complexity code hint high = Ok at_high /\
    sublist at_high at_low.
Proof.
  intros Hcc Hle. do 2 eexists.
  split; [apply run_complexity_spec; exact Hcc|].
  split; [apply run_complexity_spec; exact Hcc|].
  apply filter_map_sublist. intros b Hb.
  apply Z.leb_le in Hb. apply Z.leb_le. lia.
Qed.

Lemma markdown_fold (l : list entry) :
  forall lines,
    fold_left markdown_step l lines = lines ++ map markdown_line (issues_in l).
Proof.
  induction l as [|[i|] l IH]; intros lines; simpl.
  - now rewrite app_nil_r.
  - rewrite IH, <- app_assoc. reflexivity.
  - apply IH.
Qed.

(** X17. For a non-empty sequence [issues_to_markdown] joins the header
    and one line per Issue, in order, leaving out the entries that are not
    Issues; when none of the entries is an Issue the output is the header
    alone, not the success message. *)
Theorem issues_to_markdown_lines (l : list entry) :
  l <> [] ->
  issues_to_markdown (Entries l)
  = Py.join (String Py.LF "") ("### Review Comments" :: map markdown_line (issues_in l))
  /\ (issues_in l = [] -> issues_to_markdown (Entries l) = "### Review Comments").
Proof.
  intros Hne. assert (H : issues_to_markdown (Entries l)
    = Py.join (String Py.LF "") ("### Review Comments" :: map markdown_line (issues_in l))).
  { destruct l as [|e l]; [contradiction|].
    unfold issues_to_markdown. now rewrite markdown_fold. }
  split; [exact H|]. intros Hnone. rewrite H, Hnone. reflexivity.
Qed.

(** X18. Every line rendered for an Issue of [review_code_string] ends
    with a tip: the suggestion the annotator attached is never empty. *)
Theorem review_issues_render_with_tip (code hint : string) (issues : list Issue) :
  review_code_string code hint = Ok issues ->
  Forall (fun i =>
            exists s, suggestion i = Some s /\ s <> "" /\
                      tip_of i = " Tip: " +:+ s)
         issues.
Proof.
  intros H. apply List.Forall_forall. intros i Hi.
  pose proof (review_issue_tool _ _ _ _ H Hi) as Hk.
  apply review_inv in H as (f8 & bd & cx & _ & _ & _ & ->).
  apply in_map_iff in Hi as (j & <- & _).
  unfold known_tool in Hk. simpl in Hk. unfold tip_of, annotate. simpl.
  unfold friendly_suggestion.
  destruct Hk as [Hk|[Hk|Hk]]; rewrite Hk; simpl; eexists; (split; [reflexivity|]);
    (split; [discriminate|reflexivity]).
Qed.

End ComplexityAndRenderer.

(* ===================================================================== *)
(** ** The command line and the web form *)
(* ===================================================================== *)

Section CallerFacts.

Context `{Ext : Externals} `{Hst : Host}.

(** X19. When [main] returns, the exit code is 0 with one text printed on
    standard output and nothing on standard error, or 2 with nothing on
    standard output and one message on standard error. *)
Theorem main_exit_codes (args : Namespace) (stdin : string) (o : Outcome) :
  main args stdin = Ok o ->
  (exit_code o = 0 /\ (exists text, printed o = [text]) /\ errors o = []) \/
  (exit_code o = 2 /\ printed o = [] /\ exists msg, errors o = [msg]).
Proof.
  unfold main, bind.
  destruct (_read_stream_or_file (args_file args) "file" stdin) as [[code|e] rest].
  2:{ destruct (isinstance e OSError); [|discriminate].
      intros H. injection H as <-. right. simpl. eauto. }
  destruct (review_code_string code (args_file args)) as [issues|e]; [|discriminate].
  destruct (args_diff args) as [[|c r]|].
  1,3: intros H; injection H as <-; left; simpl; eauto.
  destruct (_read_stream_or_file (String c r) "diff" rest) as [[diff_text|e] rest'].
  - destruct (filter_issues_to_changed_lines issues diff_text); [|discriminate].
    intros H. injection H as <-. left. simpl. eauto.
  - destruct (isinstance e OSError); [|discriminate].
    intros H. injection H as <-. right. simpl. eauto.
Qed.

(** X20. Reading the source and the diff both from standard input leaves
    an empty diff text: with a parser that finds no file in the empty
    text, [main] prints the unfiltered review. *)
Theorem main_stdin_for_both (stdin : string) (issues : list Issue) :
  PatchSet "" = Ok [] ->
  review_code_string stdin "-" = Ok issues ->
  main (mkNamespace "-" (Some "-")) stdin = Ok (mkOutcome 0 [show issues] []).
Proof.
  intros Hps Hrev. unfold main, _read_stream_or_file. simpl. rewrite Hrev. simpl.
  unfold filter_issues_to_changed_lines, _changed_lines_from_diff. rewrite Hps. simpl.
  destruct (decide (changed_of_patch [] = ∅)) as [_|Hne]; [reflexivity|].
  exfalso. apply Hne. reflexivity.
Qed.

(** X21. When the diff adds lines but to no file with the basename of
    [--file] (as when the source is read from standard input, whose hint
    is [-]), [main] prints the success message whatever the review
    found. *)
Theorem main_reports_nothing_for_other_file (args : Namespace) (stdin rest : string)
    (code diff_path diff_text : string) (issues : list Issue)
    (changed : gmap string (gset Z)) :
  _read_stream_or_file (args_file args) "file" stdin = (Ok code, rest) ->
  review_code_string code (args_file args) = Ok issues ->
  args_diff args = Some diff_path ->
  diff_path <> "" ->
  fst (_read_stream_or_file diff_path "diff" rest) = Ok diff_text ->
  _changed_lines_from_diff diff_text = Ok changed ->
  changed <> ∅ ->
  changed !! Py.basename (args_file args) = None ->
  main args stdin = Ok (mkOutcome 0 ["✅ No issues found. Great job!"] []).
Proof.
  intros Hread Hrev Hdiff Hne Hd Hc Hnon Hkey. unfold main.
  rewrite Hread, Hrev, Hdiff. simpl.
  destruct diff_path as [|c r]; [contradiction|].
  destruct (_read_stream_or_file (String c r) "diff" rest) as [r' rest'].
  simpl in Hd. subst r'.
  rewrite (filter_drops_review_of_other_file _ _ _ _ _ Hrev Hc Hnon Hkey).
  reflexivity.
Qed.

(** X22. [main] returns 2 exactly when reading [--file] raises an
    [OSError], or the review returned and reading a non-empty [--diff]
    raises an [OSError]. *)
Theorem main_returns_2_iff (args : Namespace) (stdin : string) :
  (exists o, main args stdin = Ok o /\ exit_code o = 2) <->
  (exists e,
      fst (_read_stream_or_file (args_file args) "file" stdin) = Raise e /\
      isinstance e OSError = true) \/
  (exists code rest issues c r e,
      _read_stream_or_file (args_file args) "file" stdin = (Ok code, rest) /\
      review_code_string code (args_file args) = Ok issues /\
      args_diff args = Some (String c r) /\
      fst (_read_stream_or_file (String c r) "diff" rest) = Raise e /\
      isinstance e OSError = true).
Proof.
  unfold main, bind. split.
  - intros (o & H & Hcode).
    destruct (_read_stream_or_file (args_file args) "file" stdin) as [[code|e] rest].
    2:{ left. exists e. split; [reflexivity|].
        destruct (isinstance e OSError); [reflexivity|discriminate]. }
    right.
    destruct (review_code_string code (args_file args)) as [issues|e] eqn:Hrev;
      [|discriminate].
    destruct (args_diff args) as [[|c r]|].
    1,3: injection H as <-; simpl in Hcode; discriminate.
    destruct (_read_stream_or_file (String c r) "diff" rest) as [[diff_text|e] rest'] eqn:Hd.
    + destruct (filter_issues_to_changed_lines issues diff_text); [|discriminate].
      injection H as <-. simpl in Hcode. discriminate.
    + exists code, rest, issues, c, r, e.
      split; [reflexivity|]. split; [exact Hrev|]. split; [reflexivity|].
      split; [now rewrite Hd|].
      destruct (isinstance e OSError); [reflexivity|discriminate].
  - intros [(e & He & Hos)|(code & rest & issues & c & r & e & Hread & Hrev & Hdiff & Hd & Hos)].
    + destruct (_read_stream_or_file (args_file args) "file" stdin) as [res rest].
      simpl in He. subst res. rewrite Hos. eexists. split; reflexivity.
    + rewrite Hread, Hrev, Hdiff.
      destruct (_read_stream_or_file (String c r) "diff" rest) as [res rest'].
      simpl in Hd. subst res. rewrite Hos. eexists. split; reflexivity.
Qed.

(** X23. The second tab of the web form warns exactly when its button is
    not pressed; pressing the button without an uploaded diff or without
    new code shows nothing at all. *)
Theorem tab2_warns_when_not_pressed (w : Widgets) (shown : list Shown) :
  tab2 w = Ok shown ->
  (In (Warning upload_warning) shown <-> review_diff_clicked w = false) /\
  (review_diff_clicked w = true ->
   diff_file w = None \/ new_code_area w = "" ->
   shown = []).
Proof.
  unfold tab2. destruct (review_diff_clicked w).
  - intros H. split.
    + split; [|discriminate]. intros Hin. exfalso.
      destruct (diff_file w) as [bytes|]; [destruct (new_code_area w) as [|c r]|];
        try (injection H as <-; destruct Hin).
      destruct (review_code_string (String c r) (fname2_input w)) as [issues|];
        simpl in H; [|discriminate].
      destruct (filter_issues_to_changed_lines issues (decode_ignore bytes));
        simpl in H; [|discriminate].
      injection H as <-. destruct Hin as [Hin|[]]. discriminate.
    + intros _ [Hd|Hn].
      * rewrite Hd in H. now injection H as <-.
      * rewrite Hn in H. destruct (diff_file w); now injection H as <-.
  - intros H. injection H as <-. split; [|discriminate].
    split; [reflexivity|]. intros _. now left.
Qed.

(** X24. The web form and the command line agree: for the same source,
    file name and diff text, the second tab shows as Markdown exactly the
    text that [main] prints with exit code 0. *)
Theorem tab2_agrees_with_main (w : Widgets) (stdin : string) (f d bytes : string)
    (c : ascii) (r : string) (text : string) :
  review_diff_clicked w = true ->
  diff_file w = Some bytes ->
  new_code_area w = String c r ->
  fname2_input w = f ->
  f <> "-" -> d <> "-" -> d <> "" ->
  open_read f = Ok (String c r) ->
  open_read d = Ok (decode_ignore bytes) ->
  tab2 w = Ok [Markdown text] <->
  main (mkNamespace f (Some d)) stdin = Ok (mkOutcome 0 [text] []).
Proof.
  intros Hclick Hfile Hcode Hname Hf Hd Hd' Hrf Hrd.
  apply String.eqb_neq in Hf, Hd.
  unfold tab2, main, _read_stream_or_file, bind. cbn [args_file args_diff].
  rewrite Hclick, Hfile, Hcode, Hname, Hf, Hrf.
  destruct (review_code_string (String c r) f) as [issues|e]; [|split; discriminate].
  destruct d as [|c' r']; [contradiction|]. rewrite Hd, Hrd.
  destruct (filter_issues_to_changed_lines issues (decode_ignore bytes)) as [kept|e];
    [|split; discriminate].
  split; intros H; injection H as <-; reflexivity.
Qed.

End CallerFacts.

(* ===================================================================== *)
(** ** The further properties on the sample runs *)
(* ===================================================================== *)

Lemma lookup_nonempty (m : gmap string (gset Z)) (k : string) (v : gset Z) :
  m !! k = Some v -> m <> ∅.
Proof. intros H ->. rewrite lookup_empty in H. discriminate. Qed.

Lemma run_flake8_tolerates_any_output_witness :
  (exists issues,
      @run_flake8 flake8_row_zero sample_code "snippet.py" = Ok issues /\
      (length issues <= 1)%nat /\
      Forall (fun i => file i = "snippet.py" /\ severity i = "LOW" /\ tool i = "flake8" /\
                       suggestion i = None /\
                       exists code_id text, rule i = PyStr code_id /\ message i = PyStr text)
             issues) /\
  (exists issues,
      @run_flake8 flake8_other_scripts sample_code "snippet.py" = Ok issues /\
      (length issues <= 2)%nat /\
      Forall (fun i => file i = "snippet.py" /\ severity i = "LOW" /\ tool i = "flake8" /\
                       suggestion i = None /\
                       exists code_id text, rule i = PyStr code_id /\ message i = PyStr text)
             issues).
Proof.
  split.
  - exact (run_flake8_tolerates_any_output (Ext := flake8_row_zero) sample_code
             "snippet.py" _ eq_refl).
  - exact (run_flake8_tolerates_any_output (Ext := flake8_other_scripts) sample_code
             "snippet.py" _ eq_refl).
Defined.

(** The row in Arabic-Indic digits is read as 3; the line ends at the
    line separator. *)
Lemma run_flake8_other_scripts :
  @run_flake8 flake8_other_scripts sample_code "snippet.py"
  = Ok [mkIssue "snippet.py" 3 "LOW" "flake8" (PyStr "E501") (PyStr "line too long")
          None].
Proof. vm_compute. reflexivity. Qed.

Lemma flake8_loop_reads_back_findings_witness :
  flake8_loop (Ext := sample_run) "snippet.py"
    ["2|1|E231|missing whitespace after ','";
     "14|80|E501|line too long (91 > 79 characters) | see setup.cfg"] []
  = Ok [mkIssue "snippet.py" 2 "LOW" "flake8" (PyStr "E231")
          (PyStr "missing whitespace after ','") None;
        mkIssue "snippet.py" 14 "LOW" "flake8" (PyStr "E501")
          (PyStr "line too long (91 > 79 characters) | see setup.cfg") None].
Proof.
  refine (flake8_loop_reads_back_findings (Ext := sample_run) "snippet.py"
            sample_findings _).
  repeat constructor.
Defined.

Lemma flake8_loop_skips_malformed_line_witness :
  flake8_loop (Ext := sample_run) "snippet.py"
    ["2|1|E231|missing whitespace after ','"; "warning: plugin chatter";
     "x|1|E999|row is not a number"] []
  = flake8_loop (Ext := sample_run) "snippet.py"
      ["2|1|E231|missing whitespace after ','"] [].
Proof.
  etransitivity.
  - apply (flake8_loop_skips_malformed_line (Ext := sample_run) "snippet.py"
             "warning: plugin chatter"
             ["2|1|E231|missing whitespace after ','"]
             ["x|1|E999|row is not a number"]).
    left. vm_compute. lia.
  - apply (flake8_loop_skips_malformed_line (Ext := sample_run) "snippet.py"
             "x|1|E999|row is not a number"
             ["2|1|E231|missing whitespace after ','"] []).
    right. exists "x", ["1"; "E999"; "row is not a number"], ValueError.
    split; reflexivity.
Defined.

Lemma review_survives_missing_analysers_witness :
  @run_flake8 analysers_missing sample_code "snippet.py"
  = Ok [mkIssue "snippet.py" 1 "LOW" "flake8" (PyStr "INSTALL")
          (PyStr "flake8 not found. Did you install requirements?") None] /\
  @run_bandit analysers_missing sample_code "snippet.py"
  = Ok [mkIssue "snippet.py" 1 "LOW" "bandit" (PyStr "INSTALL")
          (PyStr "bandit not found. Did you install requirements?") None] /\
  @review_code_string analysers_missing sample_code "snippet.py"
  = Ok (map annotate
          [flake8_missing "snippet.py"; bandit_missing "snippet.py";
           complexity_issue "snippet.py" (mkBlock "complex_fn" 11 8);
           complexity_issue "snippet.py" (mkBlock "three_paths" 3 40)]).
Proof.
  destruct (review_survives_missing_analysers (Ext := analysers_missing)
              sample_code "snippet.py") as (Hf & Hb & _ & _ & Hboth).
  split; [exact (Hf eq_refl)|]. split; [exact (Hb eq_refl)|].
  exact (Hboth eq_refl eq_refl sample_blocks eq_refl).
Defined.

Lemma run_bandit_without_results_witness :
  @run_bandit flake8_row_zero sample_code "snippet.py" = Ok [] /\
  @run_bandit (world (fun _ => Ok "") (fun _ => Ok "Traceback (most recent call last):"))
    sample_code "snippet.py" = Ok [].
Proof.
  split.
  - apply (run_bandit_without_results (Ext := flake8_row_zero) sample_code "snippet.py" "").
    + reflexivity.
    + right. exists []. split; reflexivity.
  - apply (run_bandit_without_results
             (Ext := world (fun _ => Ok "") (fun _ => Ok "Traceback (most recent call last):"))
             sample_code "snippet.py" "Traceback (most recent call last):").
    + reflexivity.
    + left. reflexivity.
Defined.

Lemma run_bandit_one_issue_per_result_witness :
  @run_bandit sample_run sample_code "snippet.py"
  = Ok [mkIssue "snippet.py" 5 "MEDIUM" "bandit" (PyStr "B307")
          (PyStr "Use of possibly insecure function") None;
        mkIssue "snippet.py" 1 "LOW" "bandit" (PyStr "BXXX") (PyStr "note") None].
Proof.
  apply (run_bandit_one_issue_per_result (Ext := sample_run) sample_code "snippet.py"
           report_ok report_ok_data
           [PyDict [("line_number", PyInt 5); ("issue_severity", PyStr "medium");
                    ("test_id", PyStr "B307");
                    ("issue_text", PyStr "Use of possibly insecure function")];
            PyDict [("issue_text", PyStr "note")]]).
  - reflexivity.
  - reflexivity.
  - reflexivity.
  - repeat constructor.
Defined.

Lemma run_bandit_raises_at_first_bad_result_witness :
  @run_bandit bandit_bad_line sample_code "snippet.py" = Raise ValueError.
Proof.
  apply (run_bandit_raises_at_first_bad_result (Ext := bandit_bad_line) sample_code
           "snippet.py" report_bad_line
           (PyDict [("results", PyList [PyDict bad_line_record])])
           [] [] (PyDict bad_line_record) [] ValueError).
  - reflexivity.
  - reflexivity.
  - reflexivity.
  - constructor.
  - reflexivity.
Defined.

Lemma review_issues_on_hinted_file_witness :
  exists issues,
    @review_code_string sample_run sample_code "src/app.py" = Ok issues /\
    length issues = 5%nat /\
    Forall (fun i => file i = "src/app.py") issues.
Proof.
  eexists. split; [vm_compute; reflexivity|]. split; [reflexivity|].
  exact (review_issues_on_hinted_file (Ext := sample_run) sample_code "src/app.py" _
           eq_refl).
Defined.

Lemma changed_lines_entries_witness :
  added_lines snippet_adds_2 <> ∅ /\ no_slash "snippet.py" = true /\
  exists ps pf,
    sample_PatchSet diff_adds_line_2 = Ok ps /\ In pf ps /\ is_removed_file pf = false /\
    _normalize_path (target_file pf) = "snippet.py" /\
    added_lines snippet_adds_2 = added_lines pf.
Proof.
  apply (changed_lines_entries (Ext := sample_run) diff_adds_line_2
           (changed_of_patch [snippet_adds_2]) "snippet.py" (added_lines snippet_adds_2)).
  - reflexivity.
  - apply (changed_last_contributor [] [] snippet_adds_2).
    + split; [reflexivity|]. intros He.
      pose proof added_lines_snippet as Hin. rewrite He in Hin. set_solver.
    + intros q [].
Defined.

Lemma filter_issues_keeps_changed_lines_witness :
  sublist [style_issue_line_2] [style_issue_line_2; security_issue_line_5] /\
  (changed_of_patch [snippet_adds_2] <> ∅ ->
   forall i, In i [style_issue_line_2] <->
     In i [style_issue_line_2; security_issue_line_5] /\
     exists added,
       changed_of_patch [snippet_adds_2] !! Py.basename (file i) = Some added /\
       line i ∈ added).
Proof.
  apply (filter_issues_keeps_changed_lines (Ext := sample_run)
           [style_issue_line_2; security_issue_line_5] [style_issue_line_2]
           diff_adds_line_2 (changed_of_patch [snippet_adds_2])).
  - reflexivity.
  - vm_compute. reflexivity.
Defined.

Lemma changed_two_utils :
  changed_of_patch [pkg_util; lib_util] !! "util.py" = Some (added_lines lib_util).
Proof.
  apply (changed_last_contributor [pkg_util] [] lib_util).
  - split; [reflexivity|]. rewrite added_lines_lib_util. set_solver.
  - intros q [].
Qed.

Lemma changed_two_utils_other (k : string) :
  k <> "util.py" -> changed_of_patch [pkg_util; lib_util] !! k = None.
Proof.
  intros Hk. unfold changed_of_patch. simpl.
  rewrite (changed_step_insert _ lib_util), (changed_step_insert _ pkg_util).
  - rewrite !lookup_insert_ne by (intros H; apply Hk; rewrite <- H; reflexivity).
    apply lookup_empty.
  - split; [reflexivity|]. rewrite added_lines_pkg_util. set_solver.
  - split; [reflexivity|]. rewrite added_lines_lib_util. set_solver.
Qed.

Lemma filter_drops_review_of_other_file_witness :
  exists issues,
    @review_code_string sample_run sample_code "snippet.py" = Ok issues /\
    length issues = 5%nat /\
    @filter_issues_to_changed_lines sample_run issues diff_two_utils = Ok [].
Proof.
  eexists. split; [vm_compute; reflexivity|]. split; [reflexivity|].
  apply (filter_drops_review_of_other_file (Ext := sample_run) sample_code "snippet.py"
           diff_two_utils _ (changed_of_patch [pkg_util; lib_util])).
  - reflexivity.
  - reflexivity.
  - exact (lookup_nonempty _ _ _ changed_two_utils).
  - apply changed_two_utils_other. discriminate.
Defined.

Lemma run_complexity_threshold_monotone_witness :
  exists at_low at_high,
    @run_complexity sample_run sample_code "snippet.py" 2 = Ok at_low /\
    @run_complexity sample_run sample_code "snippet.py" 11 = Ok at_high /\
    sublist at_high at_low.
Proof.
  apply (run_complexity_threshold_monotone (Ext := sample_run) sample_code "snippet.py"
           2 11 sample_blocks).
  - reflexivity.
  - lia.
Defined.

Lemma issues_to_markdown_lines_witness :
  @issues_to_markdown sample_run (Entries [Shapeless; AnIssue style_issue_line_2])
  = Py.join (String Py.LF "")
      ["### Review Comments"; @markdown_line sample_run style_issue_line_2] /\
  @issues_to_markdown sample_run (Entries [Shapeless; Shapeless]) = "### Review Comments".
Proof.
  split.
  - apply (issues_to_markdown_lines (Ext := sample_run)
             [Shapeless; AnIssue style_issue_line_2]). discriminate.
  - apply (issues_to_markdown_lines (Ext := sample_run) [Shapeless; Shapeless]).
    + discriminate.
    + reflexivity.
Defined.

Lemma review_issues_render_with_tip_witness :
  exists issues,
    @review_code_string analysers_missing sample_code "snippet.py" = Ok issues /\
    length issues = 4%nat /\
    Forall (fun i => exists s, suggestion i = Some s /\ s <> "" /\
                               tip_of i = " Tip: " +:+ s) issues.
Proof.
  eexists. split; [vm_compute; reflexivity|]. split; [reflexivity|].
  exact (review_issues_render_with_tip (Ext := analysers_missing) sample_code
           "snippet.py" _ eq_refl).
Defined.

Lemma main_exit_codes_witness :
  exists o,
    @main sample_run sample_host (mkNamespace "missing.py" None) "" = Ok o /\
    exit_code o = 2 /\ printed o = [] /\ length (errors o) = 1%nat.
Proof.
  eexists. split; [vm_compute; reflexivity|].
  destruct (main_exit_codes (Ext := sample_run) (Hst := sample_host)
              (mkNamespace "missing.py" None) "" _ eq_refl)
    as [(H0 & _)|(H2 & Hp & msg & Hm)].
  - discriminate H0.
  - split; [exact H2|]. split; [exact Hp|]. exact (f_equal (@length string) Hm).
Defined.

Lemma main_stdin_for_both_witness :
  exists issues,
    @review_code_string sample_run sample_code "-" = Ok issues /\
    length issues = 5%nat /\
    @main sample_run sample_host (mkNamespace "-" (Some "-")) sample_code
    = Ok (mkOutcome 0 [@show sample_run issues] []).
Proof.
  eexists. split; [vm_compute; reflexivity|]. split; [reflexivity|].
  apply (main_stdin_for_both (Ext := sample_run) (Hst := sample_host) sample_code).
  - reflexivity.
  - reflexivity.
Defined.

Lemma main_reports_nothing_for_other_file_witness :
  @main sample_run sample_host (mkNamespace "-" (Some "utils.diff")) sample_code
  = Ok (mkOutcome 0 ["✅ No issues found. Great job!"] []) /\
  @main sample_run sample_host (mkNamespace "snippet.py" (Some "utils.diff")) ""
  = Ok (mkOutcome 0 ["✅ No issues found. Great job!"] []).
Proof.
  split.
  - eapply (main_reports_nothing_for_other_file (Ext := sample_run) (Hst := sample_host)
              (mkNamespace "-" (Some "utils.diff")) sample_code "" sample_code
              "utils.diff" diff_two_utils _ (changed_of_patch [pkg_util; lib_util])).
    + reflexivity.
    + vm_compute. reflexivity.
    + reflexivity.
    + discriminate.
    + reflexivity.
    + reflexivity.
    + exact (lookup_nonempty _ _ _ changed_two_utils).
    + apply changed_two_utils_other. discriminate.
  - eapply (main_reports_nothing_for_other_file (Ext := sample_run) (Hst := sample_host)
              (mkNamespace "snippet.py" (Some "utils.diff")) "" "" sample_code
              "utils.diff" diff_two_utils _ (changed_of_patch [pkg_util; lib_util])).
    + reflexivity.
    + vm_compute. reflexivity.
    + reflexivity.
    + discriminate.
    + reflexivity.
    + reflexivity.
    + exact (lookup_nonempty _ _ _ changed_two_utils).
    + apply changed_two_utils_other. discriminate.
Defined.

Lemma tab2_warns_when_not_pressed_witness :
  (exists shown,
      @tab2 sample_run sample_host (sample_form false (Some diff_adds_line_2)) = Ok shown /\
      In (Warning upload_warning) shown) /\
  (exists shown,
      @tab2 sample_run sample_host (sample_form true None) = Ok shown /\ shown = []).
Proof.
  split; eexists; (split; [reflexivity|]).
  - apply (tab2_warns_when_not_pressed (Ext := sample_run) (Hst := sample_host)
             (sample_form false (Some diff_adds_line_2)) _ eq_refl).
    reflexivity.
  - apply (tab2_warns_when_not_pressed (Ext := sample_run) (Hst := sample_host)
             (sample_form true None) _ eq_refl).
    + reflexivity.
    + left. reflexivity.
Defined.

Lemma tab2_agrees_with_main_witness :
  exists text,
    @tab2 sample_run sample_host (sample_form true (Some diff_adds_line_2))
    = Ok [Markdown text] /\
    @main sample_run sample_host (mkNamespace "snippet.py" (Some "change.diff")) ""
    = Ok (mkOutcome 0 [text] []).
Proof.
  eexists. split; [vm_compute; reflexivity|].
  apply (tab2_agrees_with_main (Ext := sample_run) (Hst := sample_host)
           (sample_form true (Some diff_adds_line_2)) "" "snippet.py" "change.diff"
           diff_adds_line_2 "e" "val(input())").
  - reflexivity.
  - reflexivity.
  - reflexivity.
  - reflexivity.
  - discriminate.
  - discriminate.
  - discriminate.
  - reflexivity.
  - reflexivity.
  - vm_compute. reflexivity.
Defined.

Lemma run_bandit_rejects_other_shapes_witness :
  @run_bandit bandit_prints_array sample_code "snippet.py" = Raise AttributeError.
Proof.
  apply (run_bandit_rejects_other_shapes (Ext := bandit_prints_array) sample_code
           "snippet.py" "[]" (PyList [])).
  - reflexivity.
  - reflexivity.
  - discriminate.
Defined.
